(** * base64img-web: the image-to-PNG-data-URI conversion of [src/App.tsx]

    A shallow embedding of [processImage] and of the helpers it calls, with
    the browser (FileReader, HTMLImageElement, canvas) taken as a parameter
    [Platform]; [toDataURL] and the Base64 text it returns follow the HTML
    standard and RFC 4648.

    JavaScript numbers are IEEE-754 binary64 values.  The arithmetic of the
    conversion is written once, over an interface [JSNumber], and read at
    two instances:
    - [double]: Rocq's primitive binary64 floats, the arithmetic the engine
      runs, rounding included;
    - [exact]: rationals extended with the infinities and NaN, the same
      operations without rounding.
    Statements over every input are proved at [exact] (and, where the
    arithmetic plays no role, at every instance); what the engine computes
    at given inputs is evaluated at [double]. *)

From Stdlib Require Import ZArith NArith QArith Qround Bool List String Ascii Lia Lqa.
From Stdlib.Strings Require Import Byte.
From Stdlib Require Import Floats.
From Stdlib Require DecimalString DecimalN DecimalPos.
Import ListNotations.

Set Implicit Arguments.
Set Warnings "-inexact-float".

(* ------------------------------------------------------------------ *)
(** ** JavaScript numbers *)

(** The operations of the Number type that [processImage] uses. *)
Class JSNumber (num : Type) : Type := {
  (** an unsigned integer (a DOM [unsigned long], a string length, a
      literal) read as a Number *)
  of_N : N -> num;
  num_div : num -> num -> num;
  num_mul : num -> num -> num;
  num_sub : num -> num -> num;
  num_add : num -> num -> num;
  (** [Math.min] of two arguments *)
  Math_min : num -> num -> num;
  (** [Math.round]: the nearest integer, ties towards +Infinity *)
  Math_round : num -> num;
  (** [Math.ceil] *)
  Math_ceil : num -> num;
  (** [===], [<] and [<=] on numbers *)
  num_eqb : num -> num -> bool;
  num_ltb : num -> num -> bool;
  num_leb : num -> num -> bool;
  isNaN : num -> bool
}.

Declare Scope js_scope.
Delimit Scope js_scope with js.
Infix "/" := num_div : js_scope.
Infix "*" := num_mul : js_scope.
Infix "-" := num_sub : js_scope.
Infix "+" := num_add : js_scope.
Infix "===" := num_eqb (at level 70, no associativity) : js_scope.
Infix "<?" := num_ltb : js_scope.
Infix "<=?" := num_leb : js_scope.

(* ------------------------------------------------------------------ *)
(** *** binary64 *)

Module Double.

(** The integer [z] rounded to the nearest binary64 value (exact below 2^53). *)
Definition of_Z (z : Z) : float :=
  SF2Prim (binary_normalize prec emax z 0 false).

Definition is_nan (x : float) : bool := negb (PrimFloat.eqb x x).

Definition is_neg_zero (x : float) : bool :=
  match Prim2SF x with
  | S754_zero true => true
  | _ => false
  end.

(** [Math.min(a, b)]: NaN when either is NaN; -0 is smaller than +0. *)
Definition min (a b : float) : float :=
  if is_nan a || is_nan b then nan
  else if PrimFloat.ltb a b then a
  else if PrimFloat.ltb b a then b
  else if is_neg_zero a then a else b.

(** [floor (x + 1/2)] and [ceil x] of a finite [x = (-1)^s * m * 2^e] with
    [e < 0], computed on the integers. *)
Definition round_half_up (s : bool) (m : positive) (e : Z) : Z :=
  let n := if s then Z.neg m else Z.pos m in
  let d := (2 ^ (- e))%Z in
  ((2 * n + d) / (2 * d))%Z.

Definition ceiling (s : bool) (m : positive) (e : Z) : Z :=
  let n := if s then Z.neg m else Z.pos m in
  let d := (2 ^ (- e))%Z in
  (- ((- n) / d))%Z.

(** An integer result back as a float; a zero result keeps the sign of the
    argument, as [Math.round(-0.2)] is [-0]. *)
Definition integral (s : bool) (z : Z) : float :=
  SF2Prim (binary_normalize prec emax z 0 s).

Definition round (x : float) : float :=
  match Prim2SF x with
  | S754_finite s m e =>
      if (0 <=? e)%Z then x else integral s (round_half_up s m e)
  | _ => x
  end.

Definition ceil (x : float) : float :=
  match Prim2SF x with
  | S754_finite s m e =>
      if (0 <=? e)%Z then x else integral s (ceiling s m e)
  | _ => x
  end.

End Double.

#[export] Instance double : JSNumber float := {
  of_N n := Double.of_Z (Z.of_N n);
  num_div := PrimFloat.div;
  num_mul := PrimFloat.mul;
  num_sub := PrimFloat.sub;
  num_add := PrimFloat.add;
  Math_min := Double.min;
  Math_round := Double.round;
  Math_ceil := Double.ceil;
  num_eqb := PrimFloat.eqb;
  num_ltb := PrimFloat.ltb;
  num_leb := PrimFloat.leb;
  isNaN := Double.is_nan
}.

(* ------------------------------------------------------------------ *)
(** *** exact arithmetic *)

(** A Number without rounding: NaN, an infinity, or a rational.  The two
    zeros are one value; a division by zero takes the divisor as +0, which
    is what an unsigned integer read as a Number gives. *)
Inductive xnum : Type :=
| XNaN
| XInf (negative : bool)
| XFin (q : Q).

Module Exact.

Definition Qltb (a b : Q) : bool := negb (Qle_bool b a).
Definition Qis_zero (a : Q) : bool := Qeq_bool a 0.
Definition Qis_neg (a : Q) : bool := Qltb a 0.

Definition mul (a b : xnum) : xnum :=
  match a, b with
  | XNaN, _ | _, XNaN => XNaN
  | XInf s, XInf t => XInf (xorb s t)
  | XInf s, XFin q | XFin q, XInf s =>
      if Qis_zero q then XNaN else XInf (xorb s (Qis_neg q))
  | XFin p, XFin q => XFin (p * q)
  end.

Definition div (a b : xnum) : xnum :=
  match a, b with
  | XNaN, _ | _, XNaN => XNaN
  | XInf _, XInf _ => XNaN
  | XInf s, XFin q => XInf (xorb s (Qis_neg q))
  | XFin _, XInf _ => XFin 0
  | XFin p, XFin q =>
      if Qis_zero q then (if Qis_zero p then XNaN else XInf (Qis_neg p))
      else XFin (p / q)
  end.

Definition sub (a b : xnum) : xnum :=
  match a, b with
  | XNaN, _ | _, XNaN => XNaN
  | XInf s, XInf t => if Bool.eqb s t then XNaN else XInf s
  | XInf s, XFin _ => XInf s
  | XFin _, XInf t => XInf (negb t)
  | XFin p, XFin q => XFin (p - q)
  end.

Definition add (a b : xnum) : xnum :=
  match a, b with
  | XNaN, _ | _, XNaN => XNaN
  | XInf s, XInf t => if Bool.eqb s t then XInf s else XNaN
  | XInf s, XFin _ => XInf s
  | XFin _, XInf t => XInf t
  | XFin p, XFin q => XFin (p + q)
  end.

Definition ltb (a b : xnum) : bool :=
  match a, b with
  | XNaN, _ | _, XNaN => false
  | XInf s, XInf t => s && negb t
  | XInf s, XFin _ => s
  | XFin _, XInf t => negb t
  | XFin p, XFin q => Qltb p q
  end.

Definition eqb (a b : xnum) : bool :=
  match a, b with
  | XNaN, _ | _, XNaN => false
  | XInf s, XInf t => Bool.eqb s t
  | XFin p, XFin q => Qeq_bool p q
  | _, _ => false
  end.

Definition leb (a b : xnum) : bool := ltb a b || eqb a b.

Definition min (a b : xnum) : xnum :=
  match a, b with
  | XNaN, _ | _, XNaN => XNaN
  | _, _ => if ltb b a then b else a
  end.

Definition round (a : xnum) : xnum :=
  match a with
  | XFin q => XFin (inject_Z (Qfloor (q + (1 # 2))))
  | _ => a
  end.

Definition ceil (a : xnum) : xnum :=
  match a with
  | XFin q => XFin (inject_Z (Qceiling q))
  | _ => a
  end.

Definition is_nan (a : xnum) : bool :=
  match a with
  | XNaN => true
  | _ => false
  end.

End Exact.

#[export] Instance exact : JSNumber xnum := {
  of_N n := XFin (inject_Z (Z.of_N n));
  num_div := Exact.div;
  num_mul := Exact.mul;
  num_sub := Exact.sub;
  num_add := Exact.add;
  Math_min := Exact.min;
  Math_round := Exact.round;
  Math_ceil := Exact.ceil;
  num_eqb := Exact.eqb;
  num_ltb := Exact.ltb;
  num_leb := Exact.leb;
  isNaN := Exact.is_nan
}.

(* ------------------------------------------------------------------ *)
(** ** Strings *)

Local Open Scope string_scope.

(** [s.split(sep)] for a separator of one character. *)
Fixpoint split (sep : ascii) (s : string) : list string :=
  match s with
  | EmptyString => [EmptyString]
  | String c rest =>
      if Ascii.eqb c sep then EmptyString :: split sep rest
      else match split sep rest with
           | [] => [String c EmptyString]
           | piece :: pieces => String c piece :: pieces
           end
  end.

(** Whether [sep] does not occur in [s]. *)
Fixpoint lacks (sep : ascii) (s : string) : bool :=
  match s with
  | EmptyString => true
  | String c rest => negb (Ascii.eqb c sep) && lacks sep rest
  end.

(** [list.includes(s)] on a list of strings. *)
Definition includes (l : list string) (s : string) : bool :=
  existsb (String.eqb s) l.

(** The length of a string as a Number. *)
Definition js_length {num} `{JSNumber num} (s : string) : num :=
  of_N (N.of_nat (String.length s)).

(* ------------------------------------------------------------------ *)
(** ** Base64 (RFC 4648, with padding), as [toDataURL] emits it *)

Module Base64.

Definition alphabet : list ascii :=
  list_ascii_of_string
    "ABCDEFGHIJKLMNOPQRSTUVWXYZabcdefghijklmnopqrstuvwxyz0123456789+/".

Definition pad : ascii := "="%char.

(** The character of a 6-bit group. *)
Definition digit (n : N) : ascii := nth (N.to_nat n) alphabet pad.

(** The 24-bit group of three bytes. *)
Definition group (a b c : byte) : N :=
  (Byte.to_N a * 65536 + Byte.to_N b * 256 + Byte.to_N c)%N.

Definition sextet (g : N) (i : N) : ascii :=
  digit ((g / 2 ^ (6 * (3 - i))) mod 64)%N.

Fixpoint encode (bs : list byte) : string :=
  match bs with
  | [] => EmptyString
  | [a] =>
      let g := group a x00 x00 in
      String (sextet g 0) (String (sextet g 1) (String pad (String pad EmptyString)))
  | [a; b] =>
      let g := group a b x00 in
      String (sextet g 0) (String (sextet g 1) (String (sextet g 2) (String pad EmptyString)))
  | a :: b :: c :: rest =>
      let g := group a b c in
      String (sextet g 0) (String (sextet g 1) (String (sextet g 2) (String (sextet g 3)
        (encode rest))))
  end.

End Base64.

(* ------------------------------------------------------------------ *)
(** ** Data model *)

(** A [File] of the File API: what [processImage] reads of it, and its bytes. *)
Module File.
Record t : Type := {
  name : string;
  type : string;
  size : N;
  bytes : list byte
}.
End File.

(** [interface ImageMetadata] *)
Module ImageMetadata.
Record t : Type := {
  filename : string;
  type : string;
  size : N;
  width : N;
  height : N
}.
End ImageMetadata.

(** A loaded [HTMLImageElement]: its source and its natural size, both
    [unsigned long] attributes. *)
Record HTMLImageElement : Type := {
  src : string;
  naturalWidth : N;
  naturalHeight : N
}.

(** A value that a [throw] or a rejected promise carries, as the [catch]
    clause tells them apart: an [Error] with its message, or anything else. *)
Inductive Thrown : Type :=
| ErrorObject (message : string)
| NotAnError.

Inductive Completion (A : Type) : Type :=
| Normal (a : A)
| Throw (e : Thrown).
Arguments Normal {A} a.
Arguments Throw {A} e.

(** [err instanceof Error ? err.message : 'An unknown error occurred'] *)
Definition errorMessage (err : Thrown) : string :=
  match err with
  | ErrorObject message => message
  | NotAnError => "An unknown error occurred"
  end.

Definition ALLOWED_TYPES : list string :=
  ["image/png"; "image/jpeg"; "image/webp"; "image/svg+xml"].

Definition isValidImageType (type : string) : bool :=
  includes ALLOWED_TYPES type.

(** [interface OutputData] *)
Record OutputData (num : Type) : Type := {
  dataUri : string;
  outputSizeKB : num;
  outputWidth : N;
  outputHeight : N
}.
Arguments dataUri {num} _.
Arguments outputSizeKB {num} _.
Arguments outputWidth {num} _.
Arguments outputHeight {num} _.

(** The calls made on a 2D context, in order. *)
Inductive ContextCall (num : Type) : Type :=
| clearRect (x y w h : num)
| drawImage5 (image : HTMLImageElement) (dx dy dw dh : num)
| drawImage3 (image : HTMLImageElement) (dx dy : num).

(** A canvas: its size ([unsigned long] attributes) and what was drawn. *)
Module Canvas.
Record t (num : Type) : Type := {
  width : N;
  height : N;
  calls : list (ContextCall num)
}.
Arguments width {num} _.
Arguments height {num} _.
Arguments calls {num} _.
End Canvas.

Section Conversion.

Context {num : Type} `{JSNumber num}.

(** [document.createElement('canvas')]: 300 x 150 and blank. *)
Definition createCanvas : Canvas.t num :=
  {| Canvas.width := 300; Canvas.height := 150; Canvas.calls := [] |}.

(** [canvas.width = v] and [canvas.height = v]; either resets the bitmap. *)
Definition set_width (v : N) (c : Canvas.t num) : Canvas.t num :=
  {| Canvas.width := v; Canvas.height := Canvas.height c; Canvas.calls := [] |}.
Definition set_height (v : N) (c : Canvas.t num) : Canvas.t num :=
  {| Canvas.width := Canvas.width c; Canvas.height := v; Canvas.calls := [] |}.

(** A call on the canvas's context.  Neither [clearRect] nor [drawImage]
    throws on an image that has loaded and decoded; [drawImage] with an
    image without pixels, or with a NaN or infinite argument, draws nothing. *)
Definition ctx_call (k : ContextCall num) (c : Canvas.t num) : Canvas.t num :=
  {| Canvas.width := Canvas.width c; Canvas.height := Canvas.height c;
     Canvas.calls := Canvas.calls c ++ [k] |}.

(** The browser, as far as [processImage] meets it. *)
Record Platform : Type := {
  (** [FileReader.readAsDataURL]: the result handed to [onload], or [None]
      when [onerror] fires *)
  readAsDataURL : File.t -> option string;
  (** assigning [img.src]: the image handed to [onload], or [None] when
      [onerror] fires *)
  loadImage : string -> option HTMLImageElement;
  (** [img.decode()]: [None] when the promise resolves, the rejection otherwise *)
  decode : HTMLImageElement -> option Thrown;
  (** whether [canvas.getContext('2d')] returns a context *)
  getContext2d : bool;
  (** the PNG serialisation of a canvas bitmap: the file's bytes, [None]
      when the bitmap cannot be serialised, or the exception raised (a
      canvas that is not origin-clean) *)
  serializePNG : Canvas.t num -> Completion (option (list byte))
}.

(** The platform calls that a conversion makes, in order. *)
Inductive PlatformCall : Type :=
| FileReader_readAsDataURL (file : File.t)
| Image_load (url : string)
| Image_decode (img : HTMLImageElement)
| Document_createCanvas
| Canvas_getContext
| Canvas_toDataURL (canvas : Canvas.t num).

(** The component's state (the [useState] cells of [App]). *)
Record AppState : Type := {
  selectedFile : option File.t;
  imageMetadata : option ImageMetadata.t;
  outputData : option (OutputData num);
  canvasSize : N;
  fitToSquare : bool;
  isDragOver : bool;
  isProcessing : bool;
  error : option string;
  success : option string
}.

(** The state and the platform calls made so far. *)
Record World : Type := {
  app : AppState;
  trace : list PlatformCall
}.

(* ------------------------------------------------------------------ *)
(** ** Asynchronous code: state, exceptions, [try]/[catch]/[finally] *)

Definition Async (A : Type) : Type := World -> Completion A * World.

Definition ret {A} (a : A) : Async A := fun w => (Normal a, w).

Definition bind {A B} (m : Async A) (k : A -> Async B) : Async B :=
  fun w =>
    match m w with
    | (Normal a, w') => k a w'
    | (Throw e, w') => (Throw e, w')
    end.

Definition throw {A} (e : Thrown) : Async A := fun w => (Throw e, w).

Definition try_catch_finally (body : Async unit) (handler : Thrown -> Async unit)
    (finalizer : Async unit) : Async unit :=
  fun w =>
    match body w with
    | (Normal _, w1) => finalizer w1
    | (Throw e, w1) =>
        match handler e w1 with
        | (Normal _, w2) => finalizer w2
        | (Throw e', w2) =>
            match finalizer w2 with
            | (Normal _, w3) => (Throw e', w3)
            | thrown => thrown
            end
        end
    end.

(** A completion that is already known. *)
Definition settle {A} (c : Completion A) : Async A := fun w => (c, w).

Definition update (f : AppState -> AppState) : Async unit :=
  fun w => (Normal tt, {| app := f (app w); trace := trace w |}).

Definition call (c : PlatformCall) : Async unit :=
  fun w => (Normal tt, {| app := app w; trace := trace w ++ [c] |}).

End Conversion.

Arguments Platform num : clear implicits.
Arguments PlatformCall num : clear implicits.
Arguments AppState num : clear implicits.
Arguments World num : clear implicits.
Arguments Async num A : clear implicits.

Declare Scope async_scope.
Delimit Scope async_scope with async.
Notation "x <- m ;; k" := (bind m (fun x => k))
  (at level 100, m at next level, right associativity) : async_scope.
Notation "m ;; k" := (bind m (fun _ => k))
  (at level 100, right associativity) : async_scope.

Local Open Scope async_scope.

(* ------------------------------------------------------------------ *)
(** ** The component *)

Section App.

Context {num : Type} `{JSNumber num}.

(** *** State setters *)

Definition setSelectedFile (v : option File.t) : Async num unit :=
  update (fun s =>
    {| selectedFile := v; imageMetadata := imageMetadata s; outputData := outputData s;
       canvasSize := canvasSize s; fitToSquare := fitToSquare s; isDragOver := isDragOver s;
       isProcessing := isProcessing s; error := error s; success := success s |}).

Definition setImageMetadata (v : option ImageMetadata.t) : Async num unit :=
  update (fun s =>
    {| selectedFile := selectedFile s; imageMetadata := v; outputData := outputData s;
       canvasSize := canvasSize s; fitToSquare := fitToSquare s; isDragOver := isDragOver s;
       isProcessing := isProcessing s; error := error s; success := success s |}).

Definition setOutputData (v : option (OutputData num)) : Async num unit :=
  update (fun s =>
    {| selectedFile := selectedFile s; imageMetadata := imageMetadata s; outputData := v;
       canvasSize := canvasSize s; fitToSquare := fitToSquare s; isDragOver := isDragOver s;
       isProcessing := isProcessing s; error := error s; success := success s |}).

Definition setCanvasSize (v : N) : Async num unit :=
  update (fun s =>
    {| selectedFile := selectedFile s; imageMetadata := imageMetadata s;
       outputData := outputData s;
       canvasSize := v; fitToSquare := fitToSquare s; isDragOver := isDragOver s;
       isProcessing := isProcessing s; error := error s; success := success s |}).

Definition setFitToSquare (v : bool) : Async num unit :=
  update (fun s =>
    {| selectedFile := selectedFile s; imageMetadata := imageMetadata s;
       outputData := outputData s;
       canvasSize := canvasSize s; fitToSquare := v; isDragOver := isDragOver s;
       isProcessing := isProcessing s; error := error s; success := success s |}).

Definition setIsProcessing (v : bool) : Async num unit :=
  update (fun s =>
    {| selectedFile := selectedFile s; imageMetadata := imageMetadata s;
       outputData := outputData s;
       canvasSize := canvasSize s; fitToSquare := fitToSquare s; isDragOver := isDragOver s;
       isProcessing := v; error := error s; success := success s |}).

Definition setError (v : option string) : Async num unit :=
  update (fun s =>
    {| selectedFile := selectedFile s; imageMetadata := imageMetadata s;
       outputData := outputData s;
       canvasSize := canvasSize s; fitToSquare := fitToSquare s; isDragOver := isDragOver s;
       isProcessing := isProcessing s; error := v; success := success s |}).

Definition setSuccess (v : option string) : Async num unit :=
  update (fun s =>
    {| selectedFile := selectedFile s; imageMetadata := imageMetadata s;
       outputData := outputData s;
       canvasSize := canvasSize s; fitToSquare := fitToSquare s; isDragOver := isDragOver s;
       isProcessing := isProcessing s; error := error s; success := v |}).

Definition clearMessages : Async num unit :=
  setError None ;; setSuccess None.

Definition showError (message : string) : Async num unit :=
  setError (Some message) ;; setSuccess None.

Definition showSuccess (message : string) : Async num unit :=
  setSuccess (Some message) ;; setError None.

(** *** The geometry of the fit-to-square branch (lines 107 to 113) *)

Section Geometry.

Variable currentCanvasSize : N.
Variable img : HTMLImageElement.

Definition scale : num :=
  Math_min (of_N currentCanvasSize / of_N (naturalWidth img))%js
           (of_N currentCanvasSize / of_N (naturalHeight img))%js.

Definition scaledWidth : num := (of_N (naturalWidth img) * scale)%js.
Definition scaledHeight : num := (of_N (naturalHeight img) * scale)%js.

Definition x : num := ((of_N currentCanvasSize - scaledWidth) / of_N 2)%js.
Definition y : num := ((of_N currentCanvasSize - scaledHeight) / of_N 2)%js.

End Geometry.

(** The two branches on [currentFitToSquare] (lines 101 to 125): size the
    canvas and draw the image. *)
Definition draw (currentFitToSquare : bool) (currentCanvasSize : N)
    (img : HTMLImageElement) (canvas : Canvas.t num) : Canvas.t num :=
  if currentFitToSquare then
    let canvas := set_width currentCanvasSize canvas in
    let canvas := set_height currentCanvasSize canvas in
    let canvas :=
      ctx_call (clearRect (of_N 0) (of_N 0) (of_N currentCanvasSize) (of_N currentCanvasSize))
               canvas in
    ctx_call (drawImage5 img (x currentCanvasSize img) (y currentCanvasSize img)
                (scaledWidth currentCanvasSize img) (scaledHeight currentCanvasSize img))
             canvas
  else
    let canvas := set_width (naturalWidth img) canvas in
    let canvas := set_height (naturalHeight img) canvas in
    ctx_call (drawImage3 img (of_N 0) (of_N 0)) canvas.

(** The size accounting (lines 131 to 133). *)
Definition outputSizeBytes_of (base64Data : string) : num :=
  Math_round ((js_length base64Data * of_N 3) / of_N 4)%js.

Definition outputSizeKB_of (base64Data : string) : num :=
  (Math_round (outputSizeBytes_of base64Data / of_N 1024 * of_N 10) / of_N 10)%js.

Section WithPlatform.

Variable platform : Platform num.

(** *** Platform calls *)

(** The promise around the [FileReader] (lines 62 to 67). *)
Definition readFile (file : File.t) : Async num string :=
  call (FileReader_readAsDataURL file) ;;
  match readAsDataURL platform file with
  | Some result => ret result
  | None => throw (ErrorObject "Failed to read file")
  end.

(** [new Image()] and the promise around its load (lines 70 to 75). *)
Definition loadImg (dataUrl : string) : Async num HTMLImageElement :=
  call (Image_load dataUrl) ;;
  match loadImage platform dataUrl with
  | Some img => ret img
  | None => throw (ErrorObject "Failed to load image")
  end.

(** [await img.decode()] *)
Definition decodeImg (img : HTMLImageElement) : Async num unit :=
  call (Image_decode img) ;;
  match decode platform img with
  | None => ret tt
  | Some rejection => throw rejection
  end.

(** [canvas.getContext('2d')]: whether a context came back. *)
Definition getContext : Async num bool :=
  call Canvas_getContext ;; ret (getContext2d platform).

(** [canvas.toDataURL('image/png')], as the HTML standard defines it: a
    bitmap without pixels gives ["data:,"], and so does one that cannot be
    serialised; otherwise the PNG file in base64 behind the [data:] header. *)
Definition dataURL (canvas : Canvas.t num) : Completion string :=
  if (Canvas.width canvas =? 0)%N || (Canvas.height canvas =? 0)%N then Normal "data:,"
  else
    match serializePNG platform canvas with
    | Throw e => Throw e
    | Normal None => Normal "data:,"
    | Normal (Some png) => Normal ("data:image/png;base64," ++ Base64.encode png)
    end.

Definition toDataURL (canvas : Canvas.t num) : Async num string :=
  call (Canvas_toDataURL canvas) ;; settle (dataURL canvas).

(** [pieces[1]] followed by a property read: [undefined] has no property. *)
Definition second_piece (pieces : list string) : Async num string :=
  match nth_error pieces 1 with
  | Some piece => ret piece
  | None => throw (ErrorObject "Cannot read properties of undefined (reading 'length')")
  end.

(** *** processImage (lines 52 to 147)

    [fitToSquare] and [canvasSize] are the variables of the enclosing render
    that the function closes over. *)
Definition processImage (fitToSquare : bool) (canvasSize : N) (file : File.t)
    : Async num unit :=
  clearMessages ;;
  setIsProcessing true ;;
  try_catch_finally
    ((if negb (isValidImageType (File.type file))
      then throw (ErrorObject ("Unsupported file type: " ++ File.type file
                                 ++ ". Please use PNG, JPEG, WEBP, or SVG."))
      else ret tt) ;;
     dataUrl <- readFile file ;;
     img <- loadImg dataUrl ;;
     decodeImg img ;;
     setImageMetadata
       (Some {| ImageMetadata.filename := File.name file;
                ImageMetadata.type := File.type file;
                ImageMetadata.size := File.size file;
                ImageMetadata.width := naturalWidth img;
                ImageMetadata.height := naturalHeight img |}) ;;
     call Document_createCanvas ;;
     let canvas := createCanvas in
     ctx <- getContext ;;
     (if negb ctx then throw (ErrorObject "Canvas context not available") else ret tt) ;;
     let currentFitToSquare := fitToSquare in
     let currentCanvasSize := canvasSize in
     let canvas := draw currentFitToSquare currentCanvasSize img canvas in
     pngDataUri <- toDataURL canvas ;;
     base64Data <- second_piece (split "," pngDataUri) ;;
     let outputSizeKB := outputSizeKB_of base64Data in
     setOutputData
       (Some {| dataUri := pngDataUri;
                outputSizeKB := outputSizeKB;
                outputWidth := Canvas.width canvas;
                outputHeight := Canvas.height canvas |}))
    (fun err => showError (errorMessage err))
    (setIsProcessing false).

(** The world after [processImage] has settled. *)
Definition after_processImage (fitToSquare : bool) (canvasSize : N) (file : File.t)
    (w : World num) : World num :=
  snd (processImage fitToSquare canvasSize file w).

(** *** The shell around [processImage] *)

(** The first render: the initial values of the [useState] cells. *)
Definition initialState : AppState num :=
  {| selectedFile := None; imageMetadata := None; outputData := None;
     canvasSize := 256; fitToSquare := true; isDragOver := false;
     isProcessing := false; error := None; success := None |}.

(** [useCallback(async (file) => ..., [])]: with an empty dependency list
    the function made by the first render is the one every later render
    gets, and the [fitToSquare] and [canvasSize] it closes over are the
    constants of that first render. *)
Definition memoized_processImage : File.t -> Async num unit :=
  processImage (fitToSquare initialState) (canvasSize initialState).

Definition handleFileSelect (file : File.t) : Async num unit :=
  setSelectedFile (Some file) ;; memoized_processImage file.

(** [value] is what [parseInt] returned, [None] for NaN. *)
Definition handleCanvasSizeChange (value : option Z) : Async num unit :=
  match value with
  | Some v => if ((8 <=? v) && (v <=? 2048))%Z then setCanvasSize (Z.to_N v) else ret tt
  | None => ret tt
  end.

Definition handleFitToSquareChange (checked : bool) : Async num unit :=
  setFitToSquare checked.

(** The effect on [canvasSize], [fitToSquare] and [selectedFile], once its
    timer of 100 ms has fired. *)
Definition reprocess : Async num unit :=
  fun w =>
    match selectedFile (app w) with
    | Some file =>
        if negb (isProcessing (app w)) then memoized_processImage file w
        else (Normal tt, w)
    | None => (Normal tt, w)
    end.

End WithPlatform.

End App.

(* ------------------------------------------------------------------ *)
(** ** A platform to run the conversion on

    Every file reads, every URL loads as an image of [w] by [h] pixels that
    decodes, a context is available and every bitmap serialises to [png]. *)

Definition stubPlatform {num : Type} (w h : N) (png : list byte) : Platform num :=
  {| readAsDataURL f :=
       Some ("data:" ++ File.type f ++ ";base64," ++ Base64.encode (File.bytes f));
     loadImage url := Some {| src := url; naturalWidth := w; naturalHeight := h |};
     decode _ := None;
     getContext2d := true;
     serializePNG _ := Normal (Some png) |}.

(** The same platform without a 2D context. *)
Definition noContextPlatform {num : Type} (w h : N) : Platform num :=
  {| readAsDataURL := readAsDataURL (@stubPlatform num w h []);
     loadImage := loadImage (@stubPlatform num w h []);
     decode := decode (@stubPlatform num w h []);
     getContext2d := false;
     serializePNG := serializePNG (@stubPlatform num w h []) |}.

Definition pngFile : File.t :=
  {| File.name := "icon.png"; File.type := "image/png"; File.size := 3;
     File.bytes := [x89; x50; x4e] |}.

Definition gifFile : File.t :=
  {| File.name := "anim.gif"; File.type := "image/gif"; File.size := 3;
     File.bytes := [x47; x49; x46] |}.

Definition svgFile : File.t :=
  {| File.name := "empty.svg"; File.type := "image/svg+xml"; File.size := 3;
     File.bytes := [x3c; x73; x76] |}.

Definition initialWorld {num : Type} `{JSNumber num} : World num :=
  {| app := initialState; trace := [] |}.

(** A state that already holds the output of an earlier conversion. *)
Definition earlierOutput : OutputData float :=
  {| dataUri := "data:image/png;base64,AAAA"; outputSizeKB := 0%float;
     outputWidth := 64; outputHeight := 64 |}.

Definition laterWorld : World float :=
  {| app :=
       {| selectedFile := Some pngFile; imageMetadata := None;
          outputData := Some earlierOutput;
          canvasSize := 256; fitToSquare := true; isDragOver := false;
          isProcessing := false; error := None; success := None |};
     trace := [] |}.

(* ------------------------------------------------------------------ *)
(** ** What the statements below are about *)

(** What a settled run shows: the message of a failure, or the output stored. *)
Definition shown {num : Type} (w : World num) : string + option (OutputData num) :=
  match error (app w) with
  | Some message => inl message
  | None => inr (outputData (app w))
  end.

(** Whether, in binary64, [T / n] is above 1; and whether it is for every
    [n] below [T]. *)
Definition ratio_above_one (T n : N) : bool :=
  (@of_N float double 1 <? of_N T / of_N n)%js.

Definition ratios_above_one (T : N) : bool :=
  forallb (ratio_above_one T) (map N.of_nat (seq 0 (N.to_nat T))).

(** The size as the specification words it: the byte length is the ceiling
    of three quarters of the Base64 length, and the size in KB is
    [round(bytes / 1024 * 10) / 10]. *)
Definition spec_encodedByteLength {num : Type} `{JSNumber num} (base64Length : N) : num :=
  Math_ceil ((of_N base64Length * of_N 3) / of_N 4)%js.

Definition spec_sizeKB {num : Type} `{JSNumber num} (base64Length : N) : num :=
  (Math_round (spec_encodedByteLength base64Length / of_N 1024 * of_N 10) / of_N 10)%js.

(* ------------------------------------------------------------------ *)
(** ** The runs of [processImage], exit by exit *)

Section Runs.

Context {num : Type} `{JSNumber num}.

(** The world a run leaves: the platform [calls] it made, the metadata it
    stored (if it got that far) and its [result], the message shown or the
    descriptor stored.  Whatever else the state holds stays as it was. *)
Definition finish (w : World num) (calls : list (PlatformCall num))
    (meta : option ImageMetadata.t) (result : string + OutputData num) : World num :=
  {| app :=
       {| selectedFile := selectedFile (app w);
          imageMetadata :=
            match meta with
            | Some m => Some m
            | None => imageMetadata (app w)
            end;
          outputData :=
            match result with
            | inr descriptor => Some descriptor
            | inl _ => outputData (app w)
            end;
          canvasSize := canvasSize (app w);
          fitToSquare := fitToSquare (app w);
          isDragOver := isDragOver (app w);
          isProcessing := false;
          error :=
            match result with
            | inl message => Some message
            | inr _ => None
            end;
          success := None |};
     trace := trace w ++ calls |}.

Definition metadata_of (file : File.t) (img : HTMLImageElement) : ImageMetadata.t :=
  {| ImageMetadata.filename := File.name file;
     ImageMetadata.type := File.type file;
     ImageMetadata.size := File.size file;
     ImageMetadata.width := naturalWidth img;
     ImageMetadata.height := naturalHeight img |}.

Definition unsupported_message (file : File.t) : string :=
  "Unsupported file type: " ++ File.type file ++ ". Please use PNG, JPEG, WEBP, or SVG.".

Variable platform : Platform num.
Variables (fit : bool) (T : N) (file : File.t).

(** The canvas as [processImage] hands it to [toDataURL]. *)
Definition drawn (img : HTMLImageElement) : Canvas.t num :=
  draw fit T img createCanvas.

(** One constructor per way out of [processImage]: the platform calls made,
    the metadata stored, and the message shown or the descriptor stored. *)
Inductive Exit :
  list (PlatformCall num) -> option ImageMetadata.t -> string + OutputData num -> Prop :=
| Exit_unsupported :
    isValidImageType (File.type file) = false ->
    Exit [] None (inl (unsupported_message file))
| Exit_read_failed :
    isValidImageType (File.type file) = true ->
    readAsDataURL platform file = None ->
    Exit [FileReader_readAsDataURL file] None (inl "Failed to read file")
| Exit_load_failed url :
    isValidImageType (File.type file) = true ->
    readAsDataURL platform file = Some url ->
    loadImage platform url = None ->
    Exit [FileReader_readAsDataURL file; Image_load url] None (inl "Failed to load image")
| Exit_decode_failed url img rejection :
    isValidImageType (File.type file) = true ->
    readAsDataURL platform file = Some url ->
    loadImage platform url = Some img ->
    decode platform img = Some rejection ->
    Exit [FileReader_readAsDataURL file; Image_load url; Image_decode img] None
         (inl (errorMessage rejection))
| Exit_no_context url img :
    isValidImageType (File.type file) = true ->
    readAsDataURL platform file = Some url ->
    loadImage platform url = Some img ->
    decode platform img = None ->
    getContext2d platform = false ->
    Exit [FileReader_readAsDataURL file; Image_load url; Image_decode img;
          Document_createCanvas; Canvas_getContext]
         (Some (metadata_of file img)) (inl "Canvas context not available")
| Exit_encode_failed url img exn :
    isValidImageType (File.type file) = true ->
    readAsDataURL platform file = Some url ->
    loadImage platform url = Some img ->
    decode platform img = None ->
    getContext2d platform = true ->
    dataURL platform (drawn img) = Throw exn ->
    Exit [FileReader_readAsDataURL file; Image_load url; Image_decode img;
          Document_createCanvas; Canvas_getContext; Canvas_toDataURL (drawn img)]
         (Some (metadata_of file img)) (inl (errorMessage exn))
| Exit_no_payload url img pngDataUri :
    isValidImageType (File.type file) = true ->
    readAsDataURL platform file = Some url ->
    loadImage platform url = Some img ->
    decode platform img = None ->
    getContext2d platform = true ->
    dataURL platform (drawn img) = Normal pngDataUri ->
    nth_error (split "," pngDataUri) 1 = None ->
    Exit [FileReader_readAsDataURL file; Image_load url; Image_decode img;
          Document_createCanvas; Canvas_getContext; Canvas_toDataURL (drawn img)]
         (Some (metadata_of file img))
         (inl "Cannot read properties of undefined (reading 'length')")
| Exit_converted url img pngDataUri base64Data :
    isValidImageType (File.type file) = true ->
    readAsDataURL platform file = Some url ->
    loadImage platform url = Some img ->
    decode platform img = None ->
    getContext2d platform = true ->
    dataURL platform (drawn img) = Normal pngDataUri ->
    nth_error (split "," pngDataUri) 1 = Some base64Data ->
    Exit [FileReader_readAsDataURL file; Image_load url; Image_decode img;
          Document_createCanvas; Canvas_getContext; Canvas_toDataURL (drawn img)]
         (Some (metadata_of file img))
         (inr {| dataUri := pngDataUri;
                 outputSizeKB := outputSizeKB_of base64Data;
                 outputWidth := Canvas.width (drawn img);
                 outputHeight := Canvas.height (drawn img) |}).

End Runs.

(* ------------------------------------------------------------------ *)
(** ** [parseInt]

    [parseInt(text)] without a radix, on ASCII text: leading white space is
    skipped, a sign is read, ["0x"] or ["0X"] selects radix 16, and the
    longest run of digits is the value; without a digit the result is NaN,
    here [None].  The value is kept as an integer: the handler only
    compares it with 8 and 2048, which the rounding to a Number leaves as
    they are. *)

Module ParseInt.

(** The white space of [StrWhiteSpaceChar] that ASCII has: TAB, LF, VT, FF,
    CR and the space. *)
Definition isWhiteSpace (c : ascii) : bool :=
  let n := N_of_ascii c in
  ((9 <=? n) && (n <=? 13) || (n =? 32))%N.

Fixpoint trimStart (s : string) : string :=
  match s with
  | String c rest => if isWhiteSpace c then trimStart rest else s
  | EmptyString => s
  end.

(** The value of a digit or letter, whatever the radix. *)
Definition digitValue (c : ascii) : option N :=
  let n := N_of_ascii c in
  if ((48 <=? n) && (n <=? 57))%N then Some (n - 48)%N
  else if ((97 <=? n) && (n <=? 122))%N then Some (n - 87)%N
  else if ((65 <=? n) && (n <=? 90))%N then Some (n - 55)%N
  else None.

(** The value of [c] as a digit of [radix]. *)
Definition digitOf (radix : N) (c : ascii) : option N :=
  match digitValue c with
  | Some v => if (v <? radix)%N then Some v else None
  | None => None
  end.

(** The longest run of digits at the start of [s], read after [acc]. *)
Fixpoint digits (radix : N) (s : string) (acc : N) : N :=
  match s with
  | String c rest =>
      match digitOf radix c with
      | Some v => digits radix rest (acc * radix + v)%N
      | None => acc
      end
  | EmptyString => acc
  end.

Definition startsWithDigit (radix : N) (s : string) : bool :=
  match s with
  | String c _ =>
      match digitOf radix c with
      | Some _ => true
      | None => false
      end
  | EmptyString => false
  end.

(** The number written in [radix] at the start of [s], if a digit is there. *)
Definition number (radix : N) (s : string) : option N :=
  if startsWithDigit radix s then Some (digits radix s 0) else None.

Definition hasHexPrefix (s : string) : bool :=
  match s with
  | String a (String b _) => Ascii.eqb a "0" && (Ascii.eqb b "x" || Ascii.eqb b "X")
  | _ => false
  end.

(** The digits after the sign: ["0x"] or ["0X"] is stripped and selects
    radix 16. *)
Definition unsigned (s : string) : option N :=
  if hasHexPrefix s then
    match s with
    | String _ (String _ rest) => number 16 rest
    | _ => None
    end
  else number 10 s.

Definition parseInt (text : string) : option Z :=
  match trimStart text with
  | String c rest =>
      if Ascii.eqb c "-" then option_map (fun n => (- Z.of_N n)%Z) (unsigned rest)
      else if Ascii.eqb c "+" then option_map Z.of_N (unsigned rest)
      else option_map Z.of_N (unsigned (String c rest))
  | EmptyString => None
  end.

(** The number that the digits [d] denote when read after [acc]. *)
Fixpoint uint_value (d : Decimal.uint) (acc : N) : N :=
  match d with
  | Decimal.Nil => acc
  | Decimal.D0 l => uint_value l (acc * 10 + 0)
  | Decimal.D1 l => uint_value l (acc * 10 + 1)
  | Decimal.D2 l => uint_value l (acc * 10 + 2)
  | Decimal.D3 l => uint_value l (acc * 10 + 3)
  | Decimal.D4 l => uint_value l (acc * 10 + 4)
  | Decimal.D5 l => uint_value l (acc * 10 + 5)
  | Decimal.D6 l => uint_value l (acc * 10 + 6)
  | Decimal.D7 l => uint_value l (acc * 10 + 7)
  | Decimal.D8 l => uint_value l (acc * 10 + 8)
  | Decimal.D9 l => uint_value l (acc * 10 + 9)
  end%N.

(** The decimal numeral made of the digits [d]. *)
Definition numeral (d : Decimal.uint) : string :=
  DecimalString.NilEmpty.string_of_uint d.

(** The decimal numeral of [n], as one writes it. *)
Definition decimal (n : N) : string := numeral (N.to_uint n).

End ParseInt.

(* ------------------------------------------------------------------ *)
(** ** The rest of the component *)

(** An element that a handler creates and appends to the document. *)
Inductive Element : Type :=
| Textarea (value : string)
| Anchor (href download : string).

(** [new Blob(parts, { type })] *)
Record Blob : Type := {
  blobParts : list string;
  blobType : string
}.

(** The calls of the copy and download handlers on the browser, in order. *)
Inductive ShellCall : Type :=
| Clipboard_writeText (text : string)
| Body_appendChild (element : Element)
| Textarea_select (element : Element)
| Document_execCommand (command : string)
| Body_removeChild (element : Element)
| URL_createObjectURL (blob : Blob)
| Anchor_click (element : Element)
| URL_revokeObjectURL (url : string).

(** The browser, as far as the copy and download handlers meet it. *)
Record Shell : Type := {
  (** [navigator.clipboard.writeText], when [navigator.clipboard] and its
      [writeText] are there: [None] when the promise resolves, the
      rejection otherwise *)
  clipboard_writeText : option (string -> option Thrown);
  (** [document.execCommand(command)]: what it returns, or what it throws *)
  execCommand : string -> Completion bool;
  (** [URL.createObjectURL(blob)] *)
  createObjectURL : Blob -> Completion string;
  (** [a.click()]: [None] unless it throws *)
  click : Element -> option Thrown
}.

(** What [render] puts on the page (lines 245 to 377), as far as it depends
    on the state. *)
Record View (num : Type) : Type := {
  errorBanner : option string;
  successBanner : option string;
  dropZoneText : string;
  controlsShown : bool;
  (** the preview with the metadata of the source and of the output *)
  preview : option (ImageMetadata.t * num * OutputData num);
  (** the textarea with the data URI *)
  outputTextarea : option string;
  buttonsDisabled : bool;
  processingNote : bool
}.
Arguments errorBanner {num} _.
Arguments successBanner {num} _.
Arguments dropZoneText {num} _.
Arguments controlsShown {num} _.
Arguments preview {num} _.
Arguments outputTextarea {num} _.
Arguments buttonsDisabled {num} _.
Arguments processingNote {num} _.

Section Component.

Context {num : Type} `{JSNumber num}.

Definition setIsDragOver (v : bool) : Async num unit :=
  update (fun s =>
    {| selectedFile := selectedFile s; imageMetadata := imageMetadata s;
       outputData := outputData s;
       canvasSize := canvasSize s; fitToSquare := fitToSquare s; isDragOver := v;
       isProcessing := isProcessing s; error := error s; success := success s |}).

Variable platform : Platform num.
Variable shell : Shell.

(** [files] is [e.target.files], a list of files or null. *)
Definition handleFileInputChange (files : option (list File.t)) : Async num unit :=
  let file :=
    match files with
    | Some list => nth_error list 0
    | None => None
    end in
  match file with
  | Some file => handleFileSelect platform file
  | None => ret tt
  end.

Definition handleDragOver : Async num unit := setIsDragOver true.

Definition handleDragLeave : Async num unit := setIsDragOver false.

(** [files] is [e.dataTransfer.files]. *)
Definition handleDrop (files : list File.t) : Async num unit :=
  setIsDragOver false ;;
  match nth_error files 0 with
  | Some file => handleFileSelect platform file
  | None => ret tt
  end.

(** [value] is [e.target.value], the text of the number field. *)
Definition handleCanvasSizeChange_event (value : string) : Async num unit :=
  handleCanvasSizeChange (ParseInt.parseInt value).

(** *** Handlers that also act on the document

    They run on the state together with the calls made on the [Shell]. *)

Definition Desk : Type := (World num * list ShellCall)%type.

Definition Job (A : Type) : Type := Desk -> Completion A * Desk.

Definition job_ret {A} (a : A) : Job A := fun d => (Normal a, d).

Definition job_bind {A B} (m : Job A) (k : A -> Job B) : Job B :=
  fun d =>
    match m d with
    | (Normal a, d') => k a d'
    | (Throw e, d') => (Throw e, d')
    end.

(** A handler of the state alone, run on the desk. *)
Definition on_state {A} (m : Async num A) : Job A :=
  fun d => let (c, w) := m (fst d) in (c, (w, snd d)).

Definition shell_call (c : ShellCall) : Job unit :=
  fun d => (Normal tt, (fst d, (snd d ++ [c])%list)).

(** An answer of the shell that is already known. *)
Definition answer {A} (c : Completion A) : Job A := fun d => (c, d).

(** [try { body } catch { handler }] *)
Definition try_catch (body : Job unit) (handler : Job unit) : Job unit :=
  fun d =>
    match body d with
    | (Normal _, d1) => (Normal tt, d1)
    | (Throw _, d1) => handler d1
    end.

(** The guard [!outputData?.dataUri] of both handlers: the data URI when
    there is an output and its URI is not the empty string. *)
Definition currentDataUri (s : AppState num) : option string :=
  match outputData s with
  | Some output => if String.eqb (dataUri output) "" then None else Some (dataUri output)
  | None => None
  end.

Definition handleCopyDataUri : Job unit :=
  fun d =>
    match currentDataUri (app (fst d)) with
    | None => (Normal tt, d)
    | Some uri =>
        try_catch
          (match clipboard_writeText shell with
           | Some writeText =>
               job_bind (shell_call (Clipboard_writeText uri)) (fun _ =>
               job_bind (answer match writeText uri with
                                | None => Normal tt
                                | Some rejection => Throw rejection
                                end) (fun _ =>
               on_state (showSuccess "Data URI copied to clipboard!")))
           | None =>
               let textarea := Textarea uri in
               job_bind (shell_call (Body_appendChild textarea)) (fun _ =>
               job_bind (shell_call (Textarea_select textarea)) (fun _ =>
               job_bind (shell_call (Document_execCommand "copy")) (fun _ =>
               job_bind (answer (execCommand shell "copy")) (fun _ =>
               job_bind (shell_call (Body_removeChild textarea)) (fun _ =>
               on_state (showSuccess "Data URI copied to clipboard!"))))))
           end)
          (on_state (showError "Failed to copy to clipboard"))
          d
    end.

Definition handleDownloadTxt : Job unit :=
  fun d =>
    match currentDataUri (app (fst d)) with
    | None => (Normal tt, d)
    | Some uri =>
        try_catch
          (let blob := {| blobParts := [uri]; blobType := "text/plain" |} in
           job_bind (shell_call (URL_createObjectURL blob)) (fun _ =>
           job_bind (answer (createObjectURL shell blob)) (fun url =>
           let a := Anchor url "walletIcon.datauri.txt" in
           job_bind (shell_call (Body_appendChild a)) (fun _ =>
           job_bind (shell_call (Anchor_click a)) (fun _ =>
           job_bind (answer match click shell a with
                            | None => Normal tt
                            | Some exn => Throw exn
                            end) (fun _ =>
           job_bind (shell_call (Body_removeChild a)) (fun _ =>
           job_bind (shell_call (URL_revokeObjectURL url)) (fun _ =>
           on_state (showSuccess "File downloaded successfully!")))))))))
          (on_state (showError "Failed to download file"))
          d
    end.

(** *** What is rendered *)

(** [value && ...] on a string: the empty string renders nothing. *)
Definition truthy (message : option string) : option string :=
  match message with
  | Some text => if String.eqb text "" then None else Some text
  | None => None
  end.

(** The size of the source as the metadata panel prints it (line 330). *)
Definition metadataSizeKB (metadata : ImageMetadata.t) : num :=
  (Math_round (of_N (ImageMetadata.size metadata) / of_N 1024 * of_N 10) / of_N 10)%js.

Definition render (s : AppState num) : View num :=
  {| errorBanner := truthy (error s);
     successBanner := truthy (success s);
     dropZoneText :=
       match selectedFile s with
       | Some file => "Selected: " ++ File.name file
       | None => "Click or drag and drop an image here"
       end;
     controlsShown :=
       match selectedFile s with
       | Some _ => true
       | None => false
       end;
     preview :=
       match imageMetadata s, outputData s with
       | Some metadata, Some output => Some (metadata, metadataSizeKB metadata, output)
       | _, _ => None
       end;
     outputTextarea := option_map dataUri (outputData s);
     buttonsDisabled := isProcessing s;
     processingNote := isProcessing s |}.

(** *** The events of the page, one at a time

    Each handler is run to its end, the conversion it starts included. *)
Inductive Event : Type :=
| FileInputChange (files : option (list File.t))
| DragOver
| DragLeave
| Drop (files : list File.t)
| CanvasSizeChange (value : string)
| FitToSquareChange (checked : bool)
| CopyDataUri
| DownloadTxt
| ReprocessTimer.

Definition handle (e : Event) : Job unit :=
  match e with
  | FileInputChange files => on_state (handleFileInputChange files)
  | DragOver => on_state handleDragOver
  | DragLeave => on_state handleDragLeave
  | Drop files => on_state (handleDrop files)
  | CanvasSizeChange value => on_state (handleCanvasSizeChange_event value)
  | FitToSquareChange checked => on_state (handleFitToSquareChange checked)
  | CopyDataUri => handleCopyDataUri
  | DownloadTxt => handleDownloadTxt
  | ReprocessTimer => on_state (reprocess platform)
  end.

Definition step (d : Desk) (e : Event) : Desk := snd (handle e d).

(** The page after the events [es], from the first render. *)
Definition after_events (es : list Event) : Desk :=
  fold_left step es (initialWorld, []).

End Component.

Arguments Desk num : clear implicits.
Arguments Job num A : clear implicits.

(** What may follow a decimal numeral for [parseInt] to read just the
    numeral: nothing, or a character that is no decimal digit and neither
    [x] nor [X] (which after a lone 0 would make a hexadecimal prefix). *)
Definition ends_numeral (rest : string) : Prop :=
  ParseInt.startsWithDigit 10 rest = false
  /\ (forall r, rest <> String "x" r) /\ (forall r, rest <> String "X" r).

(** A browser with the asynchronous clipboard. *)
Definition clipboardShell : Shell :=
  {| clipboard_writeText := Some (fun _ => None);
     execCommand := fun _ => Normal true;
     createObjectURL := fun _ => Normal "blob:1";
     click := fun _ => None |}.

(** An older browser: no [navigator.clipboard], and an [execCommand] that
    answers [false], the copy having been refused. *)
Definition legacyShell : Shell :=
  {| clipboard_writeText := None;
     execCommand := fun _ => Normal false;
     createObjectURL := fun _ => Normal "blob:1";
     click := fun _ => None |}.

(** A browser in which the click on the download link throws. *)
Definition stuckClickShell : Shell :=
  {| clipboard_writeText := None;
     execCommand := fun _ => Normal true;
     createObjectURL := fun _ => Normal "blob:1";
     click := fun _ => Some (ErrorObject "click failed") |}.

(** The stage of the pipeline that a platform call belongs to. *)
Definition stage {num : Type} (c : PlatformCall num) : nat :=
  match c with
  | FileReader_readAsDataURL _ => 0
  | Image_load _ => 1
  | Image_decode _ => 2
  | Document_createCanvas => 3
  | Canvas_getContext => 4
  | Canvas_toDataURL _ => 5
  end.

(** What holds of the state between any two events. *)
Definition page_ok {num : Type} (s : AppState num) : Prop :=
  (8 <= canvasSize s <= 2048)%N
  /\ (error s = None \/ success s = None)
  /\ (outputData s <> None -> imageMetadata s <> None).

(* ------------------------------------------------------------------ *)
(** ** Running the pipeline symbolically *)

(** Reduces the state accessors and the pairs of a run. *)
Ltac run_cbn :=
  cbn [fst snd app trace selectedFile imageMetadata outputData canvasSize fitToSquare
       isDragOver isProcessing error success negb].

(** Unfolds one run of [processImage] down to the answers of the platform. *)
Ltac unfold_run :=
  unfold after_processImage, memoized_processImage, processImage, try_catch_finally,
    readFile, loadImg, decodeImg, getContext, toDataURL, second_piece, showError,
    clearMessages, setError, setSuccess, setIsProcessing, setImageMetadata,
    setOutputData, bind, ret, throw, settle, update, call;
  run_cbn.

(** Splits on the next answer the run is waiting for. *)
Ltac next_answer :=
  match goal with
  | |- context [if negb ?b then _ else _] =>
      let E := fresh "E" in destruct b eqn:E
  | |- context [match ?o with Some _ => _ | None => _ end] =>
      let E := fresh "E" in destruct o eqn:E
  | |- context [match ?c with Normal _ => _ | Throw _ => _ end] =>
      let E := fresh "E" in destruct c eqn:E
  end;
  run_cbn.

(** Puts the trace of a run in the shape [finish] gives it. *)
Ltac flatten_trace := unfold finish; run_cbn; rewrite <- ?app_assoc, ?app_nil_r; cbn [List.app].

(* ------------------------------------------------------------------ *)
(** ** Strings and Base64 *)

Lemma split_lacks (sep : ascii) (s : string) :
  lacks sep s = true -> split sep s = [s].
Proof.
  induction s as [|c rest IH]; cbn [lacks split]; [reflexivity|].
  intros L. apply andb_prop in L as [Lc Lrest].
  apply negb_true_iff in Lc. rewrite Lc, (IH Lrest). reflexivity.
Qed.

Lemma split_at_first (sep : ascii) (p q : string) :
  lacks sep p = true -> split sep (p ++ String sep q) = p :: split sep q.
Proof.
  induction p as [|c rest IH]; cbn [lacks split String.append].
  - intros _. now rewrite Ascii.eqb_refl.
  - intros L. apply andb_prop in L as [Lc Lrest].
    apply negb_true_iff in Lc. rewrite Lc, (IH Lrest). reflexivity.
Qed.

(** Lists three elements at a time. *)
Lemma list_ind3 (A : Type) (P : list A -> Prop) :
  P [] -> (forall a, P [a]) -> (forall a b, P [a; b]) ->
  (forall a b c rest, P rest -> P (a :: b :: c :: rest)) ->
  forall l, P l.
Proof.
  intros P0 P1 P2 P3.
  fix IH 1.
  intros [|a [|b [|c rest]]]; [exact P0 | apply P1 | apply P2 | apply P3, IH].
Qed.

Module Base64Facts.
Import Base64.

Lemma digit_not_comma (n : N) : Ascii.eqb (digit n) ","%char = false.
Proof.
  unfold digit.
  destruct (nth_in_or_default (N.to_nat n) alphabet pad) as [I|E].
  - assert (A : forallb (fun c => negb (Ascii.eqb c ","%char)) alphabet = true)
      by reflexivity.
    rewrite forallb_forall in A. apply negb_true_iff. now apply A.
  - now rewrite E.
Qed.

Lemma encode_lacks_comma (bs : list byte) : lacks ","%char (encode bs) = true.
Proof.
  induction bs as [|a|a b|a b c rest IH] using list_ind3;
    cbn [encode lacks]; unfold sextet; rewrite ?digit_not_comma; cbn [negb andb];
    auto.
Qed.

Lemma encode_length (bs : list byte) :
  String.length (encode bs) = (4 * ((List.length bs + 2) / 3))%nat.
Proof.
  induction bs as [|a|a b|a b c rest IH] using list_ind3; try reflexivity.
  cbn [encode String.length List.length]. rewrite IH.
  replace (S (S (S (List.length rest))) + 2)%nat with (List.length rest + 2 + 1 * 3)%nat by lia.
  rewrite Nat.div_add by lia. lia.
Qed.

End Base64Facts.

Section PipelineFacts.

Context {num : Type} `{JSNumber num}.
Variable platform : Platform num.

(** Every run of [processImage] leaves by one of the exits of [Exit], and
    what it does to the world is [finish], whatever the world was. *)
Lemma processImage_exit (fit : bool) (T : N) (file : File.t) :
  exists calls meta result,
    Exit platform fit T file calls meta result
    /\ forall w, after_processImage platform fit T file w = finish w calls meta result.
Proof.
  destruct (isValidImageType (File.type file)) eqn:Evalid.
  2:{ eexists _, _, _. split; [ now apply Exit_unsupported | intros w ].
      unfold_run. rewrite Evalid. now flatten_trace. }
  destruct (readAsDataURL platform file) as [url|] eqn:Eread.
  2:{ eexists _, _, _. split; [ now apply Exit_read_failed | intros w ].
      unfold_run. rewrite Evalid; run_cbn. rewrite Eread. now flatten_trace. }
  destruct (loadImage platform url) as [img|] eqn:Eload.
  2:{ eexists _, _, _. split; [ now eapply Exit_load_failed; eauto | intros w ].
      unfold_run. rewrite Evalid; run_cbn. rewrite Eread; run_cbn. rewrite Eload.
      now flatten_trace. }
  destruct (decode platform img) as [rejection|] eqn:Edecode.
  1:{ eexists _, _, _. split; [ now eapply Exit_decode_failed; eauto | intros w ].
      unfold_run. rewrite Evalid; run_cbn. rewrite Eread; run_cbn. rewrite Eload; run_cbn.
      rewrite Edecode. now flatten_trace. }
  destruct (getContext2d platform) eqn:Ectx.
  2:{ eexists _, _, _. split; [ now eapply Exit_no_context; eauto | intros w ].
      unfold_run. rewrite Evalid; run_cbn. rewrite Eread; run_cbn. rewrite Eload; run_cbn.
      rewrite Edecode; run_cbn. rewrite Ectx. now flatten_trace. }
  destruct (dataURL platform (drawn fit T img)) as [pngDataUri|exn] eqn:Eurl.
  2:{ eexists _, _, _. split; [ now eapply Exit_encode_failed; eauto | intros w ].
      unfold_run. rewrite Evalid; run_cbn. rewrite Eread; run_cbn. rewrite Eload; run_cbn.
      rewrite Edecode; run_cbn. rewrite Ectx; run_cbn.
      unfold drawn in Eurl. rewrite Eurl. now flatten_trace. }
  destruct (nth_error (split "," pngDataUri) 1) as [base64Data|] eqn:Epayload.
  - eexists _, _, _. split; [ now eapply Exit_converted; eauto | intros w ].
    unfold_run. rewrite Evalid; run_cbn. rewrite Eread; run_cbn. rewrite Eload; run_cbn.
    rewrite Edecode; run_cbn. rewrite Ectx; run_cbn.
    unfold drawn in Eurl. rewrite Eurl; run_cbn. rewrite Epayload. now flatten_trace.
  - eexists _, _, _. split; [ now eapply Exit_no_payload; eauto | intros w ].
    unfold_run. rewrite Evalid; run_cbn. rewrite Eread; run_cbn. rewrite Eload; run_cbn.
    rewrite Edecode; run_cbn. rewrite Ectx; run_cbn.
    unfold drawn in Eurl. rewrite Eurl; run_cbn. rewrite Epayload. now flatten_trace.
Qed.

(** What [toDataURL] returns always has a second piece: nothing, for the
    bitmap that gives ["data:,"], or the Base64 text of the PNG file. *)
Lemma dataURL_pieces (canvas : Canvas.t num) (pngDataUri : string) :
  dataURL platform canvas = Normal pngDataUri ->
  exists png : list byte,
    nth_error (split "," pngDataUri) 1 = Some (Base64.encode png)
    /\ (pngDataUri = "data:," \/ pngDataUri = "data:image/png;base64," ++ Base64.encode png).
Proof.
  unfold dataURL.
  destruct ((Canvas.width canvas =? 0)%N || (Canvas.height canvas =? 0)%N).
  - intros E. injection E as <-. exists []. split; [reflexivity | now left].
  - destruct (serializePNG platform canvas) as [[png|]|exn]; intros E;
      try discriminate; injection E as <-.
    + exists png. split; [|now right].
      pose proof (split_at_first ","%char "data:image/png;base64" (Base64.encode png)
                    eq_refl) as S.
      cbn [String.append] in S |- *. rewrite S.
      now rewrite split_lacks by apply Base64Facts.encode_lacks_comma.
    + exists []. split; [reflexivity | now left].
Qed.

End PipelineFacts.

(* ------------------------------------------------------------------ *)
(** ** Rejection, failure and success of a conversion *)

Lemma isValidImageType_In (type : string) :
  isValidImageType type = true <-> In type ALLOWED_TYPES.
Proof.
  unfold isValidImageType, includes. rewrite existsb_exists. split.
  - intros (t & I & E). apply String.eqb_eq in E. now subst.
  - intros I. exists type. split; [exact I | apply String.eqb_refl].
Qed.

(** C5. A file whose declared MIME type is not one of [ALLOWED_TYPES]
    (image/png, image/jpeg, image/webp, image/svg+xml) is refused with the
    "Unsupported file type" message before the platform is asked for
    anything: no read, load or decode call is made, and neither the stored
    metadata nor the stored output changes. *)
Theorem unsupported_type_rejected_before_decode
    {num : Type} `{JSNumber num} (platform : Platform num)
    (fit : bool) (T : N) (file : File.t) (w : World num) :
  ~ In (File.type file) ALLOWED_TYPES ->
  error (app (after_processImage platform fit T file w))
    = Some ("Unsupported file type: " ++ File.type file
              ++ ". Please use PNG, JPEG, WEBP, or SVG.")
  /\ trace (after_processImage platform fit T file w) = trace w
  /\ imageMetadata (app (after_processImage platform fit T file w)) = imageMetadata (app w)
  /\ outputData (app (after_processImage platform fit T file w)) = outputData (app w).
Proof.
  intros NotAllowed.
  destruct (processImage_exit platform fit T file) as (calls & meta & result & X & Run).
  rewrite Run.
  destruct X as [ | V | ? V | ? ? ? V | ? ? V | ? ? ? V | ? ? ? V | ? ? ? ? V ];
    try (apply isValidImageType_In in V; contradiction).
  unfold finish; run_cbn. rewrite app_nil_r. repeat split.
Qed.

(** The file of type image/gif is refused on the stub platform, which
    would have read, loaded and decoded it. *)
Lemma unsupported_type_rejected_witness :
  error (app (after_processImage (stubPlatform 100 50 [x89; x50]) true 256 gifFile
                (@initialWorld float _)))
    = Some "Unsupported file type: image/gif. Please use PNG, JPEG, WEBP, or SVG."
  /\ trace (after_processImage (stubPlatform 100 50 [x89; x50]) true 256 gifFile
              (@initialWorld float _)) = []
  /\ imageMetadata (app (after_processImage (stubPlatform 100 50 [x89; x50]) true 256 gifFile
                           (@initialWorld float _))) = None
  /\ outputData (app (after_processImage (stubPlatform 100 50 [x89; x50]) true 256 gifFile
                        (@initialWorld float _))) = None.
Proof.
  apply (unsupported_type_rejected_before_decode
           (stubPlatform 100 50 [x89; x50]) true 256 gifFile (@initialWorld float _)).
  cbn. intros [E|[E|[E|[E|[]]]]]; discriminate E.
Defined.

(** C7. A conversion attempt either fails, and then the stored output is
    what it was before the attempt, or succeeds, and then the stored output
    is the whole new descriptor: the data URI that [toDataURL] returned, the
    size computed from its payload, and the size of the canvas drawn. *)
Theorem failure_leaves_outputData_unchanged
    {num : Type} `{JSNumber num} (platform : Platform num)
    (fit : bool) (T : N) (file : File.t) (w : World num) :
  (exists message,
      error (app (after_processImage platform fit T file w)) = Some message
      /\ outputData (app (after_processImage platform fit T file w)) = outputData (app w))
  \/ (exists img pngDataUri base64Data,
         error (app (after_processImage platform fit T file w)) = None
         /\ dataURL platform (draw fit T img createCanvas) = Normal pngDataUri
         /\ nth_error (split "," pngDataUri) 1 = Some base64Data
         /\ outputData (app (after_processImage platform fit T file w))
            = Some {| dataUri := pngDataUri;
                      outputSizeKB := outputSizeKB_of base64Data;
                      outputWidth := Canvas.width (draw fit T img createCanvas);
                      outputHeight := Canvas.height (draw fit T img createCanvas) |}).
Proof.
  destruct (processImage_exit platform fit T file) as (calls & meta & result & X & Run).
  rewrite Run.
  destruct X; unfold finish; run_cbn;
    try (left; eexists; split; reflexivity).
  right. exists img, pngDataUri, base64Data. repeat split; assumption.
Qed.

(** C8. Two runs on the same file with the same [fitToSquare] and
    [canvasSize] (and the same platform) show the same thing, whatever the
    state each started from: the same message when they fail, the same
    descriptor, data URI included, when they succeed; and they make the same
    platform calls. *)
Theorem conversion_is_deterministic
    {num : Type} `{JSNumber num} (platform : Platform num)
    (fit : bool) (T : N) (file : File.t) (w1 w2 : World num) :
  shown (after_processImage platform fit T file w1)
    = shown (after_processImage platform fit T file w2)
  /\ exists calls,
       trace (after_processImage platform fit T file w1) = (trace w1 ++ calls)%list
       /\ trace (after_processImage platform fit T file w2) = (trace w2 ++ calls)%list.
Proof.
  destruct (processImage_exit platform fit T file) as (calls & meta & result & X & Run).
  rewrite !Run. split.
  - unfold shown, finish; run_cbn. destruct X; reflexivity.
  - exists calls. split; reflexivity.
Qed.

(** C10. The metadata of the source is stored as soon as the image has
    decoded, before the canvas is asked for a context.  So when the read,
    the load and the decode succeed and the attempt then fails (the 2D
    context is missing, or the canvas cannot be serialised), the stored
    metadata is that of the new source, while the stored output is what it
    was before the attempt. *)
Theorem metadata_stored_before_canvas_stage
    {num : Type} `{JSNumber num} (platform : Platform num)
    (fit : bool) (T : N) (file : File.t) (w : World num)
    (url : string) (img : HTMLImageElement) (message : string) :
  isValidImageType (File.type file) = true ->
  readAsDataURL platform file = Some url ->
  loadImage platform url = Some img ->
  decode platform img = None ->
  error (app (after_processImage platform fit T file w)) = Some message ->
  imageMetadata (app (after_processImage platform fit T file w))
    = Some {| ImageMetadata.filename := File.name file;
              ImageMetadata.type := File.type file;
              ImageMetadata.size := File.size file;
              ImageMetadata.width := naturalWidth img;
              ImageMetadata.height := naturalHeight img |}
  /\ outputData (app (after_processImage platform fit T file w)) = outputData (app w)
  /\ (getContext2d platform = false -> message = "Canvas context not available").
Proof.
  intros Evalid Eread Eload Edecode.
  destruct (processImage_exit platform fit T file) as (calls & meta & result & X & Run).
  rewrite Run. unfold finish; run_cbn.
  destruct X; intros Emsg; try congruence;
    repeat match goal with
           | A : ?l = Some _, B : ?l = Some _ |- _ =>
               rewrite A in B; injection B as ->
           end;
    try congruence.
  - repeat split. intros _. congruence.
  - repeat split. intros Ectx. congruence.
  - repeat split. intros Ectx. congruence.
Qed.

(** A PNG file that decodes on a platform without a 2D context, starting
    from a state that holds the output of an earlier conversion. *)
Lemma metadata_stored_witness :
  imageMetadata
    (app (after_processImage (noContextPlatform 100 50) true 256 pngFile laterWorld))
    = Some {| ImageMetadata.filename := "icon.png";
              ImageMetadata.type := "image/png";
              ImageMetadata.size := 3;
              ImageMetadata.width := 100;
              ImageMetadata.height := 50 |}
  /\ outputData
       (app (after_processImage (noContextPlatform 100 50) true 256 pngFile laterWorld))
     = Some earlierOutput
  /\ (getContext2d (@noContextPlatform float 100 50) = false ->
      "Canvas context not available" = "Canvas context not available").
Proof.
  apply (@metadata_stored_before_canvas_stage float _
           (noContextPlatform 100 50) true 256 pngFile laterWorld
           "data:image/png;base64,iVBO"
           {| src := "data:image/png;base64,iVBO"; naturalWidth := 100; naturalHeight := 50 |}
           "Canvas context not available");
    reflexivity.
Defined.

(** The size of the canvas after [draw]. *)
Lemma draw_size {num : Type} `{JSNumber num} (fit : bool) (T : N)
    (img : HTMLImageElement) (canvas : Canvas.t num) :
  Canvas.width (draw fit T img canvas) = (if fit then T else naturalWidth img)
  /\ Canvas.height (draw fit T img canvas) = (if fit then T else naturalHeight img).
Proof. destruct fit; split; reflexivity. Qed.

(** The body of [processImage], for the [fitToSquare] and [canvasSize] that
    it reads at lines 98 and 99: a conversion that succeeds stores an output
    whose width and height are both that size when that flag is set, and
    the natural width and height of the decoded source when it is not.  The
    component only ever runs it on the values of the first render, see
    [memoized_processImage]. *)
Lemma processImage_dimensions
    {num : Type} `{JSNumber num} (platform : Platform num)
    (fit : bool) (T : N) (file : File.t) (w : World num) :
  error (app (after_processImage platform fit T file w)) = None ->
  exists url img output,
    readAsDataURL platform file = Some url
    /\ loadImage platform url = Some img
    /\ outputData (app (after_processImage platform fit T file w)) = Some output
    /\ outputWidth output = (if fit then T else naturalWidth img)
    /\ outputHeight output = (if fit then T else naturalHeight img).
Proof.
  destruct (processImage_exit platform fit T file) as (calls & meta & result & X & Run).
  rewrite Run. unfold finish; run_cbn.
  destruct X; intros Eerror; try discriminate Eerror.
  exists url, img. eexists. repeat split; try eassumption; cbn [outputWidth outputHeight];
    apply draw_size.
Qed.

(** A 100 x 50 source, when the body reads a cleared flag: the output is
    100 x 50. *)
Lemma processImage_dimensions_witness :
  exists url img output,
    readAsDataURL (@stubPlatform float 100 50 [x89; x50]) pngFile = Some url
    /\ loadImage (@stubPlatform float 100 50 [x89; x50]) url = Some img
    /\ outputData (app (after_processImage (stubPlatform 100 50 [x89; x50]) false 256 pngFile
                          (@initialWorld float _))) = Some output
    /\ outputWidth output = naturalWidth img
    /\ outputHeight output = naturalHeight img.
Proof.
  apply (processImage_dimensions (stubPlatform 100 50 [x89; x50]) false 256 pngFile
           (@initialWorld float _)).
  reflexivity.
Defined.

(** C2 does not hold of the component.  The 100 x 50 PNG is chosen in the
    file input, the user clears "Fit to square" and types 512 as the canvas
    size, and the effect converts the file again, as its comment "Re-process
    when controls change" announces.  The state then holds the cleared flag
    and the size 512, the conversion has succeeded, and the output stored is
    256 x 256: neither the natural 100 x 50 that the cleared flag asks for,
    nor the 512 x 512 that the same run gives with the flag left set.  The
    callback was memoised with an empty dependency list (line 147), so the
    "current values" of lines 98 and 99 are those of the first render. *)
Theorem output_dimensions_ignore_the_controls :
  let cleared :=
    app (fst (@after_events float _ (stubPlatform 100 50 [x89; x50]) clipboardShell
                [FileInputChange (Some [pngFile]); FitToSquareChange false;
                 CanvasSizeChange "512"; ReprocessTimer])) in
  let set :=
    app (fst (@after_events float _ (stubPlatform 100 50 [x89; x50]) clipboardShell
                [FileInputChange (Some [pngFile]);
                 CanvasSizeChange "512"; ReprocessTimer])) in
  (fitToSquare cleared = false
   /\ canvasSize cleared = 512%N
   /\ error cleared = None
   /\ option_map ImageMetadata.width (imageMetadata cleared) = Some 100%N
   /\ option_map ImageMetadata.height (imageMetadata cleared) = Some 50%N
   /\ option_map outputWidth (outputData cleared) = Some 256%N
   /\ option_map outputHeight (outputData cleared) = Some 256%N)
  /\ (fitToSquare set = true
      /\ canvasSize set = 512%N
      /\ error set = None
      /\ option_map outputWidth (outputData set) = Some 256%N
      /\ option_map outputHeight (outputData set) = Some 256%N).
Proof.
  cbv zeta. split.
  - repeat split; vm_compute; reflexivity.
  - repeat split; vm_compute; reflexivity.
Qed.

(* ------------------------------------------------------------------ *)
(** ** Sources without pixels *)




(* ------------------------------------------------------------------ *)
(** ** The geometry of the fit *)

(** C1. With [fitToSquare] set, the canvas is cleared and the image drawn
    at the rectangle (x, y, scaledWidth, scaledHeight), where
    scale = min(canvasSize / naturalWidth, canvasSize / naturalHeight),
    scaledWidth = naturalWidth * scale, scaledHeight = naturalHeight * scale,
    x = (canvasSize - scaledWidth) / 2 and y = (canvasSize - scaledHeight) / 2;
    this holds in any arithmetic.  In binary64, a 100 x 50 source on a
    canvas of 256 gives scale = 2.56 and the rectangle (0, 64, 256, 128). *)
Theorem fit_geometry :
  (forall (num : Type) (number : JSNumber num) (T : N) (img : HTMLImageElement)
          (canvas : Canvas.t num),
      scale T img
        = Math_min (of_N T / of_N (naturalWidth img))%js (of_N T / of_N (naturalHeight img))%js
      /\ scaledWidth T img = (of_N (naturalWidth img) * scale T img)%js
      /\ scaledHeight T img = (of_N (naturalHeight img) * scale T img)%js
      /\ x T img = ((of_N T - scaledWidth T img) / of_N 2)%js
      /\ y T img = ((of_N T - scaledHeight T img) / of_N 2)%js
      /\ Canvas.calls (draw true T img canvas)
         = [clearRect (of_N 0) (of_N 0) (of_N T) (of_N T);
            drawImage5 img (x T img) (y T img) (scaledWidth T img) (scaledHeight T img)])
  /\ (forall src : string,
         let img := {| src := src; naturalWidth := 100; naturalHeight := 50 |} in
         scale 256 img = 2.56%float
         /\ x 256 img = 0%float
         /\ y 256 img = 64%float
         /\ scaledWidth 256 img = 256%float
         /\ scaledHeight 256 img = 128%float).
Proof.
  split.
  - intros. repeat split.
  - intros src img. repeat split; reflexivity.
Qed.

(* ------------------------------------------------------------------ *)
(** ** Exact arithmetic *)

Module ExactFacts.
Import Exact.

Lemma Qltb_lt (a b : Q) : Qltb a b = true <-> a < b.
Proof.
  unfold Qltb. rewrite negb_true_iff. split.
  - intros E. apply Qnot_le_lt. intros L. apply Qle_bool_iff in L. congruence.
  - intros L. destruct (Qle_bool b a) eqn:E; [|reflexivity].
    apply Qle_bool_iff in E. exfalso. exact (Qlt_not_le _ _ L E).
Qed.

Lemma Qltb_ge (a b : Q) : Qltb a b = false <-> b <= a.
Proof.
  unfold Qltb. rewrite negb_false_iff. apply Qle_bool_iff.
Qed.

Lemma leb_le (a b : Q) : leb (XFin a) (XFin b) = true <-> a <= b.
Proof.
  unfold leb, ltb, eqb. rewrite orb_true_iff, Qltb_lt, Qeq_bool_iff. split.
  - intros [L|E]; [now apply Qlt_le_weak | rewrite E; apply Qle_refl].
  - intros L. apply Qle_lteq in L. exact L.
Qed.

Lemma inject_pos (n : N) : (0 < n)%N -> 0 < inject_Z (Z.of_N n).
Proof. intros P. change 0 with (inject_Z 0). rewrite <- Zlt_Qlt. lia. Qed.

Lemma Qis_zero_pos (q : Q) : 0 < q -> Qis_zero q = false.
Proof.
  intros P. unfold Qis_zero. destruct (Qeq_bool q 0) eqn:E; [|reflexivity].
  apply Qeq_bool_iff in E. rewrite E in P. now apply Qlt_irrefl in P.
Qed.

Lemma Qis_neg_pos (q : Q) : 0 < q -> Qis_neg q = false.
Proof. intros P. apply Qltb_ge. now apply Qlt_le_weak. Qed.

(** A division by a positive integer is the rational quotient. *)
Lemma div_by_pos (a b : N) :
  (0 < b)%N ->
  (of_N a / of_N b)%js = XFin (inject_Z (Z.of_N a) / inject_Z (Z.of_N b)).
Proof.
  intros P. cbn [of_N num_div exact div].
  now rewrite (Qis_zero_pos (inject_pos P)).
Qed.

(** A division of a positive integer by zero is +Infinity. *)
Lemma div_by_zero (a : N) :
  (0 < a)%N -> (of_N a / of_N 0)%js = XInf false.
Proof.
  intros P. cbn [of_N num_div exact div].
  change (Qis_zero (inject_Z (Z.of_N 0))) with true. cbn iota.
  now rewrite (Qis_zero_pos (inject_pos P)), (Qis_neg_pos (inject_pos P)).
Qed.

(** The scale of a source with positive sides on a positive canvas: one of
    the two ratios, and no more than either. *)
Lemma scale_fits (T : N) (img : HTMLImageElement) :
  (0 < T)%N -> (0 < naturalWidth img)%N -> (0 < naturalHeight img)%N ->
  exists s : Q,
    @scale xnum exact T img = XFin s
    /\ 0 < s
    /\ s * inject_Z (Z.of_N (naturalWidth img)) <= inject_Z (Z.of_N T)
    /\ s * inject_Z (Z.of_N (naturalHeight img)) <= inject_Z (Z.of_N T).
Proof.
  intros PT Pw Ph. unfold scale.
  rewrite (div_by_pos T Pw), (div_by_pos T Ph).
  pose proof (inject_pos PT) as QT.
  pose proof (inject_pos Pw) as Qw.
  pose proof (inject_pos Ph) as Qh.
  set (t := inject_Z (Z.of_N T)) in *.
  set (a := inject_Z (Z.of_N (naturalWidth img))) in *.
  set (b := inject_Z (Z.of_N (naturalHeight img))) in *.
  assert (Ea : t / a * a == t) by (field; intros Z; rewrite Z in Qw; now apply Qlt_irrefl in Qw).
  assert (Eb : t / b * b == t) by (field; intros Z; rewrite Z in Qh; now apply Qlt_irrefl in Qh).
  assert (Pa : 0 < t / a) by (apply Qlt_shift_div_l; [exact Qw | now rewrite Qmult_0_l]).
  assert (Pb : 0 < t / b) by (apply Qlt_shift_div_l; [exact Qh | now rewrite Qmult_0_l]).
  cbn [Math_min exact min ltb].
  destruct (Qltb (t / b) (t / a)) eqn:L.
  - apply Qltb_lt in L. exists (t / b). repeat split; auto.
    + rewrite <- Ea at 2. apply Qmult_le_compat_r; [now apply Qlt_le_weak | now apply Qlt_le_weak].
    + rewrite Eb. apply Qle_refl.
  - apply Qltb_ge in L. exists (t / a). repeat split; auto.
    + rewrite Ea. apply Qle_refl.
    + rewrite <- Eb at 2. apply Qmult_le_compat_r; [exact L | now apply Qlt_le_weak].
Qed.

End ExactFacts.

(** The scaled sides and the offsets, in exact arithmetic, in terms of the
    rational scale. *)
Lemma exact_rect (T : N) (img : HTMLImageElement) (s : Q) :
  @scale xnum exact T img = XFin s ->
  @scaledWidth xnum exact T img = XFin (inject_Z (Z.of_N (naturalWidth img)) * s)
  /\ @scaledHeight xnum exact T img = XFin (inject_Z (Z.of_N (naturalHeight img)) * s)
  /\ @x xnum exact T img
     = XFin ((inject_Z (Z.of_N T) - inject_Z (Z.of_N (naturalWidth img)) * s) / 2)
  /\ @y xnum exact T img
     = XFin ((inject_Z (Z.of_N T) - inject_Z (Z.of_N (naturalHeight img)) * s) / 2).
Proof.
  intros E. unfold x, y, scaledWidth, scaledHeight. rewrite E. repeat split.
Qed.

(** C6, as the specification states it, fails in the arithmetic the code
    runs.  A 300 x 200 source on the canvas of 256 is drawn 256 wide and
    170.66666666666669 high: the ratio of the scaled sides is
    1.4999999999999998, not 300 / 200 = 1.5.  A 1920 x 1080 source on a
    canvas of 248 is drawn 248.00000000000003 wide, so x is negative. *)
Lemma draw_rect_rounding :
  (@scaledWidth float double 256 {| src := "s"; naturalWidth := 300; naturalHeight := 200 |}
     / scaledHeight 256 {| src := "s"; naturalWidth := 300; naturalHeight := 200 |}
   === of_N 300 / of_N 200)%js = false
  /\ (@scaledWidth float double 256 {| src := "s"; naturalWidth := 300; naturalHeight := 200 |}
        / scaledHeight 256 {| src := "s"; naturalWidth := 300; naturalHeight := 200 |})%js
     = 1.4999999999999998%float
  /\ @scaledWidth float double 248 {| src := "s"; naturalWidth := 1920; naturalHeight := 1080 |}
     = 248.00000000000003%float
  /\ (of_N 0 <=? @x float double 248 {| src := "s"; naturalWidth := 1920; naturalHeight := 1080 |})%js
     = false
  /\ (@x float double 248 {| src := "s"; naturalWidth := 1920; naturalHeight := 1080 |} <? of_N 0)%js
     = true.
Proof. repeat split; reflexivity. Qed.

(** C6, amended.  With the arithmetic carried out exactly, for every source
    with positive sides, every positive canvas size and [fitToSquare] set,
    the rectangle drawn keeps the aspect ratio of the source
    (scaledWidth / scaledHeight = naturalWidth / naturalHeight) and lies
    within the canvas (0 <= x, 0 <= y, x + scaledWidth <= canvasSize,
    y + scaledHeight <= canvasSize). *)
Theorem draw_rect_exact (T : N) (img : HTMLImageElement) :
  (0 < T)%N -> (0 < naturalWidth img)%N -> (0 < naturalHeight img)%N ->
  (@scaledWidth xnum exact T img / scaledHeight T img
   === of_N (naturalWidth img) / of_N (naturalHeight img))%js = true
  /\ (of_N 0 <=? @x xnum exact T img)%js = true
  /\ (of_N 0 <=? @y xnum exact T img)%js = true
  /\ (@x xnum exact T img + scaledWidth T img <=? of_N T)%js = true
  /\ (@y xnum exact T img + scaledHeight T img <=? of_N T)%js = true.
Proof.
  intros PT Pw Ph.
  destruct (ExactFacts.scale_fits img PT Pw Ph) as (s & Es & Ps & Fw & Fh).
  destruct (exact_rect T img Es) as (-> & -> & -> & ->).
  rewrite (ExactFacts.div_by_pos _ Ph).
  pose proof (ExactFacts.inject_pos Pw) as Qw.
  pose proof (ExactFacts.inject_pos Ph) as Qh.
  cbn [num_div num_add num_eqb num_leb of_N exact Exact.div Exact.add Exact.eqb].
  set (t := inject_Z (Z.of_N T)) in *.
  set (a := inject_Z (Z.of_N (naturalWidth img))) in *.
  set (b := inject_Z (Z.of_N (naturalHeight img))) in *.
  assert (Pbs : 0 < b * s) by (rewrite <- (Qmult_0_l s); now apply Qmult_lt_compat_r).
  rewrite (ExactFacts.Qis_zero_pos Pbs).
  rewrite !ExactFacts.leb_le.
  assert (Fw' : a * s <= t) by (now rewrite Qmult_comm).
  assert (Fh' : b * s <= t) by (now rewrite Qmult_comm).
  change (inject_Z (Z.of_N 0)) with 0.
  clearbody t a b. clear Fw Fh Es.
  unfold Qdiv. change (/ 2) with (1 # 2).
  repeat split.
  - apply Qeq_bool_iff. field. split; intros Z.
    + rewrite Z in Qh. now apply Qlt_irrefl in Qh.
    + rewrite Z in Ps. now apply Qlt_irrefl in Ps.
  - lra.
  - lra.
  - lra.
  - lra.
Qed.

(** A 300 x 200 source on the canvas of 256, the case that rounds in binary64. *)
Lemma draw_rect_exact_witness :
  (@scaledWidth xnum exact 256 {| src := "s"; naturalWidth := 300; naturalHeight := 200 |}
     / scaledHeight 256 {| src := "s"; naturalWidth := 300; naturalHeight := 200 |}
   === of_N 300 / of_N 200)%js = true
  /\ (of_N 0 <=? @x xnum exact 256 {| src := "s"; naturalWidth := 300; naturalHeight := 200 |})%js
     = true
  /\ (of_N 0 <=? @y xnum exact 256 {| src := "s"; naturalWidth := 300; naturalHeight := 200 |})%js
     = true
  /\ (@x xnum exact 256 {| src := "s"; naturalWidth := 300; naturalHeight := 200 |}
        + scaledWidth 256 {| src := "s"; naturalWidth := 300; naturalHeight := 200 |}
      <=? of_N 256)%js = true
  /\ (@y xnum exact 256 {| src := "s"; naturalWidth := 300; naturalHeight := 200 |}
        + scaledHeight 256 {| src := "s"; naturalWidth := 300; naturalHeight := 200 |}
      <=? of_N 256)%js = true.
Proof.
  apply (@draw_rect_exact 256 {| src := "s"; naturalWidth := 300; naturalHeight := 200 |});
    reflexivity.
Defined.

(* ------------------------------------------------------------------ *)
(** ** Upscaling *)

Module DoubleFacts.

Lemma SFeqb_refl (f : spec_float) : f <> S754_nan -> SFeqb f f = true.
Proof.
  unfold SFeqb, SFcompare. destruct f as [s|s| |s m e]; try congruence; intros _;
    destruct s; rewrite ?Z.compare_refl, ?Pos.compare_cont_refl; reflexivity.
Qed.

(** What is above something is not NaN. *)
Lemma ltb_not_nan (a b : float) : PrimFloat.ltb a b = true -> Double.is_nan b = false.
Proof.
  unfold Double.is_nan. rewrite ltb_spec, eqb_spec. intros L.
  rewrite SFeqb_refl; [reflexivity|].
  intros N. rewrite N in L. unfold SFltb, SFcompare in L.
  now destruct (Prim2SF a).
Qed.

(** A bound below both arguments of [Math.min] is below the minimum. *)
Lemma double_min_above (c a b : float) :
  PrimFloat.ltb c a = true -> PrimFloat.ltb c b = true ->
  PrimFloat.ltb c (Double.min a b) = true.
Proof.
  intros La Lb. unfold Double.min.
  rewrite (ltb_not_nan La), (ltb_not_nan Lb). cbn [orb].
  destruct (PrimFloat.ltb a b); [exact La|].
  destruct (PrimFloat.ltb b a); [exact Lb|].
  now destruct (Double.is_neg_zero a).
Qed.

Lemma ratios_above_one_256 : ratios_above_one 256 = true.
Proof. vm_compute. reflexivity. Qed.

Lemma ratio_above_one_256 (n : N) : (n < 256)%N -> ratio_above_one 256 n = true.
Proof.
  intros L. pose proof ratios_above_one_256 as A.
  unfold ratios_above_one in A. rewrite forallb_forall in A. apply A.
  apply in_map_iff. exists (N.to_nat n). split; [apply N2Nat.id|].
  apply in_seq. lia.
Qed.

End DoubleFacts.

Module ExactUpscale.
Import Exact.

Lemma exact_min_above (c a b : xnum) :
  ltb c a = true -> ltb c b = true -> ltb c (min a b) = true.
Proof.
  intros La Lb.
  destruct a as [|s|p], b as [|u|q]; cbn [min];
    try (destruct c; discriminate);
    match goal with |- context [if ?t then _ else _] => destruct t end; assumption.
Qed.

Lemma exact_ratio_above_one (T n : N) :
  (n < T)%N -> (@of_N xnum exact 1 <? of_N T / of_N n)%js = true.
Proof.
  intros L. destruct (N.eq_dec n 0) as [->|Pn].
  - rewrite ExactFacts.div_by_zero by exact L. reflexivity.
  - assert (P : (0 < n)%N) by lia.
    rewrite (ExactFacts.div_by_pos _ P).
    cbn [num_ltb of_N exact ltb]. apply ExactFacts.Qltb_lt.
    apply Qlt_shift_div_l; [now apply ExactFacts.inject_pos|].
    rewrite <- inject_Z_mult, <- Zlt_Qlt. lia.
Qed.

End ExactUpscale.

(** C9. With [fitToSquare] set, a source whose natural width and height
    are both smaller than [canvasSize] gets a scale above 1: it is enlarged,
    nothing clamps the scale at 1.  In exact arithmetic this holds for every
    canvas size and source; in binary64 it is checked for the canvas of 256
    and every source below it. *)
Theorem small_source_is_upscaled :
  (forall (T : N) (img : HTMLImageElement),
      (naturalWidth img < T)%N -> (naturalHeight img < T)%N ->
      (of_N 1 <? @scale xnum exact T img)%js = true)
  /\ (forall img : HTMLImageElement,
         (naturalWidth img < 256)%N -> (naturalHeight img < 256)%N ->
         (of_N 1 <? @scale float double 256 img)%js = true).
Proof.
  split.
  - intros T img Lw Lh. unfold scale.
    apply ExactUpscale.exact_min_above; now apply ExactUpscale.exact_ratio_above_one.
  - intros img Lw Lh. unfold scale.
    apply DoubleFacts.double_min_above; now apply DoubleFacts.ratio_above_one_256.
Qed.

(** A 100 x 50 source on the canvas of 256: the scale, 2.56, is above 1. *)
Lemma small_source_is_upscaled_witness :
  (of_N 1 <? @scale xnum exact 256
               {| src := "s"; naturalWidth := 100; naturalHeight := 50 |})%js = true
  /\ (of_N 1 <? @scale float double 256
                  {| src := "s"; naturalWidth := 100; naturalHeight := 50 |})%js = true.
Proof.
  split.
  - apply (proj1 small_source_is_upscaled 256%N
             {| src := "s"; naturalWidth := 100; naturalHeight := 50 |}); reflexivity.
  - apply (proj2 small_source_is_upscaled
             {| src := "s"; naturalWidth := 100; naturalHeight := 50 |}); reflexivity.
Defined.

(* ------------------------------------------------------------------ *)
(** ** Size accounting *)

Module SizeFacts.

(** Three quarters of a multiple of four, rounded either way. *)
Lemma three_quarters (k : Z) :
  let q := (inject_Z (4 * k) * inject_Z 3 / inject_Z 4)%Q in
  Qfloor (q + (1 # 2)) = (3 * k)%Z /\ Qceiling q = (3 * k)%Z.
Proof.
  intros q.
  assert (E : q == inject_Z (3 * k)).
  { unfold q. rewrite !inject_Z_mult. field. }
  split.
  - assert (E2 : q + (1 # 2) == (2 * (3 * k) + 1) # 2).
    { rewrite E. unfold Qeq, Qplus, inject_Z. cbn [Qnum Qden]. lia. }
    rewrite (Qfloor_comp _ _ E2). cbn [Qfloor].
    symmetry. apply Z.div_unique with (r := 1%Z); lia.
  - rewrite (Qceiling_comp _ _ E). apply Qceiling_Z.
Qed.

(** On a payload whose length is a multiple of four, the byte count of the
    code ([Math.round]) is the byte count of the specification (the
    ceiling), in exact arithmetic. *)
Lemma bytes_of_padded (base64Data : string) (k : nat) :
  String.length base64Data = (4 * k)%nat ->
  @outputSizeBytes_of xnum exact base64Data
  = spec_encodedByteLength (N.of_nat (String.length base64Data)).
Proof.
  intros L. unfold outputSizeBytes_of, spec_encodedByteLength, js_length.
  rewrite L.
  replace (Z.of_N (N.of_nat (4 * k))) with (4 * Z.of_nat k)%Z by lia.
  destruct (three_quarters (Z.of_nat k)) as [F C].
  cbn [of_N num_mul num_div Math_round Math_ceil exact Exact.mul Exact.div Exact.round
       Exact.ceil].
  change (Exact.Qis_zero (inject_Z (Z.of_N 4))) with false. cbn iota.
  replace (Z.of_N (N.of_nat (4 * k))) with (4 * Z.of_nat k)%Z by lia.
  change (Z.of_N 3) with 3%Z. change (Z.of_N 4) with 4%Z.
  cbv zeta in F, C. unfold Exact.round, Exact.ceil. now rewrite F, C.
Qed.

End SizeFacts.

(** C4.  The size stored by a successful conversion is
    [round(bytes / 1024 * 10) / 10], where [bytes] is the ceiling of three
    quarters of the length of the Base64 payload of the data URI.  In exact
    arithmetic this holds for every successful conversion; the code takes
    [Math.round] of the three quarters, which is the ceiling on the padded
    Base64 that [toDataURL] emits.  In binary64, a payload of 1368
    characters gives 1. *)
Theorem size_accounting :
  (forall (platform : Platform xnum) (fit : bool) (T : N) (file : File.t) (w : World xnum)
          (output : OutputData xnum),
      error (app (after_processImage platform fit T file w)) = None ->
      outputData (app (after_processImage platform fit T file w)) = Some output ->
      exists base64Data,
        nth_error (split "," (dataUri output)) 1 = Some base64Data
        /\ outputSizeKB output = spec_sizeKB (N.of_nat (String.length base64Data)))
  /\ (forall base64Data : string,
         String.length base64Data = 1368%nat ->
         @outputSizeKB_of float double base64Data = 1%float
         /\ @spec_sizeKB float double (N.of_nat (String.length base64Data)) = 1%float).
Proof.
  split.
  - intros platform fit T file w output.
    destruct (processImage_exit platform fit T file) as (calls & meta & result & X & Run).
    rewrite Run. unfold finish; run_cbn.
    destruct X; intros Eerror Eoutput; try discriminate Eerror.
    apply (f_equal (fun o => match o with Some v => v | None => output end)) in Eoutput.
    cbn beta iota in Eoutput. subst output. cbn [dataUri outputSizeKB].
    match goal with U : dataURL _ _ = Normal _ |- _ =>
      destruct (dataURL_pieces _ _ U) as (png & Epayload & _) end.
    assert (base64Data = Base64.encode png) as -> by congruence.
    exists (Base64.encode png). split; [assumption|].
    unfold outputSizeKB_of, spec_sizeKB.
    now rewrite (SizeFacts.bytes_of_padded _ _ (Base64Facts.encode_length png)).
  - intros base64Data L. unfold outputSizeKB_of, outputSizeBytes_of, spec_sizeKB,
      spec_encodedByteLength, js_length. rewrite L. split; reflexivity.
Qed.

(** A conversion whose PNG file has 1026 bytes, hence a payload of 1368
    characters. *)
Lemma size_accounting_witness :
  (exists base64Data,
      nth_error (split "," ("data:image/png;base64," ++ Base64.encode (repeat x00 1026))) 1
      = Some base64Data
      /\ @outputSizeKB_of xnum exact (Base64.encode (repeat x00 1026))
         = spec_sizeKB (N.of_nat (String.length base64Data)))
  /\ @outputSizeKB_of float double (Base64.encode (repeat x00 1026)) = 1%float
  /\ @spec_sizeKB float double
       (N.of_nat (String.length (Base64.encode (repeat x00 1026)))) = 1%float.
Proof.
  split.
  - apply (proj1 size_accounting (stubPlatform 100 50 (repeat x00 1026)) true 256%N pngFile
             (@initialWorld xnum _)
             {| dataUri := "data:image/png;base64," ++ Base64.encode (repeat x00 1026);
                outputSizeKB := outputSizeKB_of (Base64.encode (repeat x00 1026));
                outputWidth := 256; outputHeight := 256 |});
      vm_compute; reflexivity.
  - apply (proj2 size_accounting (Base64.encode (repeat x00 1026))).
    vm_compute; reflexivity.
Defined.

(* ------------------------------------------------------------------ *)
(** ** The controls and the memoised callback *)

(** X1. [processImage] is memoised with an empty dependency list, so the
    function the component calls reads the [fitToSquare] and [canvasSize] of
    the first render: whatever the controls have been set to since, a
    conversion that succeeds stores a 256 x 256 output. *)
Theorem controls_do_not_reach_processImage
    {num : Type} `{JSNumber num} (platform : Platform num) (w : World num) :
  error (app (snd (reprocess platform w))) = None ->
  selectedFile (app w) <> None ->
  isProcessing (app w) = false ->
  exists output,
    outputData (app (snd (reprocess platform w))) = Some output
    /\ outputWidth output = 256%N
    /\ outputHeight output = 256%N.
Proof.
  unfold reprocess. destruct (selectedFile (app w)) as [file|]; [|congruence].
  intros Eerror _ Eproc. rewrite Eproc in *. cbn [negb] in *.
  change (snd (memoized_processImage platform file w))
    with (after_processImage platform true 256 file w) in *.
  destruct (processImage_exit platform true 256 file) as (calls & meta & result & X & Run).
  rewrite Run in *. unfold finish in *; run_cbn; cbn [app error] in Eerror.
  destruct X; try discriminate Eerror.
  eexists. repeat split.
Qed.

(** The 100 x 50 PNG is selected; the user clears "Fit to square" and sets
    the canvas size to 512; the effect runs the conversion again.  The
    output is still 256 x 256. *)
Lemma controls_do_not_reach_processImage_witness :
  exists output,
    outputData
      (app (snd (reprocess (stubPlatform 100 50 [x89; x50])
                   (snd (handleCanvasSizeChange (Some 512%Z)
                           (snd (handleFitToSquareChange false laterWorld)))))))
    = Some output
    /\ outputWidth output = 256%N
    /\ outputHeight output = 256%N.
Proof.
  apply (@controls_do_not_reach_processImage float _ (stubPlatform 100 50 [x89; x50])).
  - reflexivity.
  - discriminate.
  - reflexivity.
Defined.

(* ------------------------------------------------------------------ *)
(** ** What a conversion leaves alone, and the order of its stages *)

(** X2. Whatever its outcome, a conversion leaves the selected file, the
    canvas size, the fit flag and the drag highlight as they were, ends
    with [isProcessing] off, and never shows a success message. *)
Theorem processImage_frame
    {num : Type} `{JSNumber num} (platform : Platform num)
    (fit : bool) (T : N) (file : File.t) (w : World num) :
  selectedFile (app (after_processImage platform fit T file w)) = selectedFile (app w)
  /\ canvasSize (app (after_processImage platform fit T file w)) = canvasSize (app w)
  /\ fitToSquare (app (after_processImage platform fit T file w)) = fitToSquare (app w)
  /\ isDragOver (app (after_processImage platform fit T file w)) = isDragOver (app w)
  /\ isProcessing (app (after_processImage platform fit T file w)) = false
  /\ success (app (after_processImage platform fit T file w)) = None.
Proof.
  destruct (processImage_exit platform fit T file) as (calls & meta & result & _ & Run).
  rewrite Run. unfold finish; run_cbn. repeat split.
Qed.

(** X3. The platform calls of a conversion are the stages of the pipeline in
    their order (read, load, decode, create the canvas, get the context,
    serialise), from the first up to the one that fails: none is skipped or
    repeated.  All six are made when the conversion succeeds; the metadata
    is stored exactly when the canvas is created, that is once the decode
    has succeeded; and the canvas is never created without the context
    being asked for. *)
Theorem stages_run_in_order
    {num : Type} `{JSNumber num} (platform : Platform num)
    (fit : bool) (T : N) (file : File.t) (w : World num) :
  exists calls,
    trace (after_processImage platform fit T file w) = (trace w ++ calls)%list
    /\ map stage calls = seq 0 (List.length calls)
    /\ (error (app (after_processImage platform fit T file w)) = None ->
        List.length calls = 6%nat)
    /\ (List.length calls <= 3 ->
        imageMetadata (app (after_processImage platform fit T file w))
        = imageMetadata (app w))%nat
    /\ (3 < List.length calls ->
        5 <= List.length calls
        /\ exists img,
             nth_error calls 2 = Some (Image_decode img)
             /\ imageMetadata (app (after_processImage platform fit T file w))
                = Some (metadata_of file img))%nat.
Proof.
  destruct (processImage_exit platform fit T file) as (calls & meta & result & X & Run).
  rewrite Run. exists calls. unfold finish; run_cbn.
  destruct X; cbn [List.length map stage seq nth_error];
    (split; [reflexivity|]); (split; [reflexivity|]);
    (split; [intros E; (discriminate E || reflexivity)|]);
    (split; [intros L; (reflexivity || (exfalso; lia))|]);
    intros L; try (exfalso; lia);
    (split; [lia|]); exists img; split; reflexivity.
Qed.

(** X4. Converting the same file again changes nothing in the state: the
    second run stores the same metadata and output, or shows the same
    message, as the first. *)
Theorem conversion_is_idempotent
    {num : Type} `{JSNumber num} (platform : Platform num)
    (fit : bool) (T : N) (file : File.t) (w : World num) :
  app (after_processImage platform fit T file (after_processImage platform fit T file w))
  = app (after_processImage platform fit T file w).
Proof.
  destruct (processImage_exit platform fit T file) as (calls & meta & result & X & Run).
  rewrite !Run. unfold finish; run_cbn.
  destruct X; reflexivity.
Qed.

(* ------------------------------------------------------------------ *)
(** ** The canvas size field *)

Module ParseIntFacts.
Import ParseInt.

Lemma uint_value_pos (d : Decimal.uint) (p : positive) :
  uint_value d (Npos p) = Npos (Pos.of_uint_acc d p).
Proof.
  revert p. induction d; intros p; cbn [uint_value Pos.of_uint_acc];
    try reflexivity;
    match goal with
    | |- uint_value _ ?a = N.pos (Pos.of_uint_acc _ ?q) =>
        replace a with (N.pos q) by lia; apply IHd
    end.
Qed.

Lemma uint_value_0 (d : Decimal.uint) : uint_value d 0 = N.of_uint d.
Proof.
  unfold N.of_uint.
  induction d; cbn [uint_value Pos.of_uint]; try reflexivity;
    try (change (0 * 10 + 0)%N with 0%N; exact IHd);
    match goal with
    | |- uint_value _ ?a = N.pos (Pos.of_uint_acc _ ?q) =>
        change a with (N.pos q); apply uint_value_pos
    end.
Qed.

(** Reading the digits of a numeral, then whatever follows. *)
Lemma digits_numeral (d : Decimal.uint) (rest : string) (acc : N) :
  digits 10 (numeral d ++ rest) acc = digits 10 rest (uint_value d acc).
Proof.
  revert acc.
  induction d; intros acc;
    cbn [numeral DecimalString.NilEmpty.string_of_uint String.append uint_value];
    try reflexivity;
    unfold numeral in IHd; cbn [digits];
    match goal with
    | |- context [digitOf 10 ?c] =>
        let v := eval vm_compute in (digitOf 10 c) in change (digitOf 10 c) with v
    end;
    cbv iota; apply IHd.
Qed.

Lemma digits_stop (s : string) (acc : N) :
  startsWithDigit 10 s = false -> digits 10 s acc = acc.
Proof.
  destruct s as [|c rest]; [reflexivity|]. cbn [startsWithDigit digits].
  now destruct (digitOf 10 c).
Qed.

(** A numeral starts with a digit: no white space, no sign, no hexadecimal
    prefix. *)
Lemma numeral_head (d : Decimal.uint) (rest : string) :
  d <> Decimal.Nil -> ends_numeral rest ->
  exists c r,
    numeral d ++ rest = String c r
    /\ isWhiteSpace c = false
    /\ Ascii.eqb c "-" = false
    /\ Ascii.eqb c "+" = false
    /\ startsWithDigit 10 (String c r) = true
    /\ hasHexPrefix (String c r) = false.
Proof.
  intros Nn (Hd & Hx & HX).
  assert (Second : forall c, hasHexPrefix (String c rest) = false).
  { intros c. destruct rest as [|b r]; [reflexivity|]. cbn [hasHexPrefix].
    destruct (Ascii.eqb_spec b "x") as [->|_]; [now destruct (Hx r)|].
    destruct (Ascii.eqb_spec b "X") as [->|_]; [now destruct (HX r)|].
    apply andb_false_r. }
  destruct d as [|d|d|d|d|d|d|d|d|d|d]; [congruence|..];
    cbn [numeral DecimalString.NilEmpty.string_of_uint String.append];
    (eexists _, _; split; [reflexivity|]);
    repeat (split; [reflexivity|]);
    (destruct d; cbn [DecimalString.NilEmpty.string_of_uint String.append];
     [apply Second | reflexivity ..]).
Qed.

(** [parseInt] reads a decimal numeral, leading zeros or not, as the number
    it denotes, and stops at the first character that is no digit. *)
Lemma parseInt_numeral (d : Decimal.uint) (rest : string) :
  d <> Decimal.Nil -> ends_numeral rest ->
  parseInt (numeral d ++ rest) = Some (Z.of_N (N.of_uint d)).
Proof.
  intros Nn E.
  destruct (@numeral_head d rest Nn E) as (c & r & Es & Ws & Minus & Plus & Dg & Hex).
  unfold parseInt. rewrite Es. cbn [trimStart]. rewrite Ws, Minus, Plus.
  unfold unsigned, number. rewrite Hex, Dg. cbn [option_map].
  rewrite <- Es, digits_numeral, digits_stop by apply E.
  now rewrite uint_value_0.
Qed.

Lemma to_uint_not_nil (n : N) : N.to_uint n <> Decimal.Nil.
Proof.
  destruct n as [|p]; [discriminate|]. apply DecimalPos.Unsigned.to_uint_nonnil.
Qed.

Lemma parseInt_decimal_then (n : N) (rest : string) :
  ends_numeral rest -> parseInt (decimal n ++ rest) = Some (Z.of_N n).
Proof.
  intros E. unfold decimal.
  rewrite (@parseInt_numeral (N.to_uint n) rest (to_uint_not_nil n) E).
  now rewrite DecimalN.Unsigned.of_to.
Qed.

Lemma ends_numeral_nothing : ends_numeral "".
Proof. repeat split; discriminate. Qed.

Lemma append_nothing (s : string) : s ++ "" = s.
Proof. induction s as [|c s IH]; [reflexivity|]. cbn. now rewrite IH. Qed.

End ParseIntFacts.

(** [parseInt] reads back the decimal numeral of every natural number. *)
Theorem parseInt_decimal (n : N) :
  ParseInt.parseInt (ParseInt.decimal n) = Some (Z.of_N n).
Proof.
  rewrite <- (ParseIntFacts.append_nothing (ParseInt.decimal n)).
  apply ParseIntFacts.parseInt_decimal_then, ParseIntFacts.ends_numeral_nothing.
Qed.

(** X5. Typing the numeral of [n] into the canvas size field sets the canvas
    size to [n] when 8 <= n <= 2048 and changes nothing otherwise; in either
    case every other cell of the state, and the trace, stay as they were. *)
Theorem canvas_size_field_accepts_8_to_2048
    {num : Type} `{JSNumber num} (n : N) (w : World num) :
  ((8 <= n <= 2048)%N ->
   canvasSize (app (snd (handleCanvasSizeChange_event (ParseInt.decimal n) w))) = n)
  /\ ((n < 8 \/ 2048 < n)%N ->
      snd (handleCanvasSizeChange_event (ParseInt.decimal n) w) = w)
  /\ selectedFile (app (snd (handleCanvasSizeChange_event (ParseInt.decimal n) w)))
     = selectedFile (app w)
  /\ imageMetadata (app (snd (handleCanvasSizeChange_event (ParseInt.decimal n) w)))
     = imageMetadata (app w)
  /\ outputData (app (snd (handleCanvasSizeChange_event (ParseInt.decimal n) w)))
     = outputData (app w)
  /\ fitToSquare (app (snd (handleCanvasSizeChange_event (ParseInt.decimal n) w)))
     = fitToSquare (app w)
  /\ error (app (snd (handleCanvasSizeChange_event (ParseInt.decimal n) w))) = error (app w)
  /\ success (app (snd (handleCanvasSizeChange_event (ParseInt.decimal n) w)))
     = success (app w)
  /\ trace (snd (handleCanvasSizeChange_event (ParseInt.decimal n) w)) = trace w.
Proof.
  unfold handleCanvasSizeChange_event.
  rewrite <- (ParseIntFacts.append_nothing (ParseInt.decimal n)).
  rewrite (ParseIntFacts.parseInt_decimal_then n ParseIntFacts.ends_numeral_nothing).
  unfold handleCanvasSizeChange.
  destruct ((8 <=? Z.of_N n)%Z && (Z.of_N n <=? 2048)%Z) eqn:R.
  - apply andb_prop in R as [L U]. apply Z.leb_le in L, U.
    unfold setCanvasSize, update; run_cbn.
    split; [intros _; apply N2Z.id|]. split; [intros [A|A]; exfalso; lia|].
    repeat split.
  - apply andb_false_iff in R. unfold ret; run_cbn.
    split; [intros [A B]; exfalso;
            destruct R as [R|R]; apply Z.leb_gt in R; lia|].
    repeat split.
Qed.

(** X6. [parseInt] stops at the first character that is not a digit, so the
    field reads only the leading digits of what is typed: a text made of
    the numeral of [n] followed by such a character ([.], [e], a unit, a
    space) is handled exactly as the numeral alone.  So "12.9" sets 12, and
    "1e3", which the number field takes for a thousand, is read as 1 and
    refused. *)
Theorem canvas_size_field_reads_leading_digits
    {num : Type} `{JSNumber num} (n : N) (rest : string) (w : World num) :
  ends_numeral rest ->
  ParseInt.parseInt (ParseInt.decimal n ++ rest) = Some (Z.of_N n)
  /\ handleCanvasSizeChange_event (ParseInt.decimal n ++ rest) w
     = handleCanvasSizeChange_event (ParseInt.decimal n) w.
Proof.
  intros E. unfold handleCanvasSizeChange_event.
  rewrite (ParseIntFacts.parseInt_decimal_then n E).
  rewrite <- (ParseIntFacts.append_nothing (ParseInt.decimal n)).
  rewrite (ParseIntFacts.parseInt_decimal_then n ParseIntFacts.ends_numeral_nothing).
  split; reflexivity.
Qed.

(** The text "1e3": read as 1, and the canvas size stays 256. *)
Lemma canvas_size_field_reads_leading_digits_witness :
  ParseInt.parseInt "1e3" = Some 1%Z
  /\ handleCanvasSizeChange_event "1e3" (@initialWorld float _)
     = handleCanvasSizeChange_event "1" (@initialWorld float _).
Proof.
  apply (@canvas_size_field_reads_leading_digits float _ 1 "e3" initialWorld).
  repeat split; discriminate.
Defined.

(* ------------------------------------------------------------------ *)
(** ** Copy and download *)

(** Unfolds a handler that acts on the document. *)
Ltac unfold_job :=
  unfold handleCopyDataUri, handleDownloadTxt, try_catch, job_bind, shell_call, answer,
    on_state, showSuccess, showError, setError, setSuccess, bind, update.

(** X7. Without a stored data URI the copy button does nothing.  With one,
    it ends with exactly one message, "Data URI copied to clipboard!" or
    "Failed to copy to clipboard"; whatever it hands to the clipboard or
    puts in the temporary textarea is the stored data URI itself; and the
    output, the metadata and the canvas size stay as they were. *)
Theorem copy_offers_the_stored_uri
    {num : Type} `{JSNumber num} (shell : Shell) (d : Desk num) :
  match currentDataUri (app (fst d)) with
  | None => snd (handleCopyDataUri shell d) = d
  | Some uri =>
      ((success (app (fst (snd (handleCopyDataUri shell d))))
          = Some "Data URI copied to clipboard!"
        /\ error (app (fst (snd (handleCopyDataUri shell d)))) = None)
       \/ (error (app (fst (snd (handleCopyDataUri shell d))))
             = Some "Failed to copy to clipboard"
           /\ success (app (fst (snd (handleCopyDataUri shell d)))) = None))
      /\ outputData (app (fst (snd (handleCopyDataUri shell d)))) = outputData (app (fst d))
      /\ imageMetadata (app (fst (snd (handleCopyDataUri shell d))))
         = imageMetadata (app (fst d))
      /\ canvasSize (app (fst (snd (handleCopyDataUri shell d)))) = canvasSize (app (fst d))
      /\ exists calls,
           snd (snd (handleCopyDataUri shell d)) = (snd d ++ calls)%list
           /\ (forall text, In (Clipboard_writeText text) calls -> text = uri)
           /\ (forall value, In (Body_appendChild (Textarea value)) calls -> value = uri)
  end.
Proof.
  unfold handleCopyDataUri.
  destruct (currentDataUri (app (fst d))) as [uri|]; [|reflexivity].
  unfold_job.
  destruct (clipboard_writeText shell) as [writeText|].
  - destruct (writeText uri) as [rejection|];
      cbn [fst snd app error success outputData imageMetadata canvasSize].
    + split; [right; split; reflexivity|]. repeat (split; [reflexivity|]).
      eexists. split; [reflexivity|]. split; intros ? [E|[]]; congruence.
    + split; [left; split; reflexivity|]. repeat (split; [reflexivity|]).
      eexists. split; [reflexivity|]. split; intros ? [E|[]]; congruence.
  - destruct (execCommand shell "copy") as [ok|exn];
      cbn [fst snd app error success outputData imageMetadata canvasSize].
    + split; [left; split; reflexivity|]. repeat (split; [reflexivity|]).
      exists [Body_appendChild (Textarea uri); Textarea_select (Textarea uri);
              Document_execCommand "copy"; Body_removeChild (Textarea uri)].
      split; [now rewrite <- !app_assoc|].
      split; intros ? I; cbn in I; intuition congruence.
    + split; [right; split; reflexivity|]. repeat (split; [reflexivity|]).
      exists [Body_appendChild (Textarea uri); Textarea_select (Textarea uri);
              Document_execCommand "copy"].
      split; [now rewrite <- !app_assoc|].
      split; intros ? I; cbn in I; intuition congruence.
Qed.

(** X8. In a browser without [navigator.clipboard] the copy goes through a
    temporary textarea and [document.execCommand('copy')], whose answer is
    not looked at: when it returns [false], the copy having been refused,
    the page still says "Data URI copied to clipboard!".  The textarea is
    removed again. *)
Theorem fallback_copy_ignores_the_answer
    {num : Type} `{JSNumber num} (shell : Shell) (d : Desk num) (uri : string) :
  currentDataUri (app (fst d)) = Some uri ->
  clipboard_writeText shell = None ->
  execCommand shell "copy" = Normal false ->
  success (app (fst (snd (handleCopyDataUri shell d)))) = Some "Data URI copied to clipboard!"
  /\ error (app (fst (snd (handleCopyDataUri shell d)))) = None
  /\ snd (snd (handleCopyDataUri shell d))
     = (snd d ++ [Body_appendChild (Textarea uri); Textarea_select (Textarea uri);
                  Document_execCommand "copy"; Body_removeChild (Textarea uri)])%list.
Proof.
  intros Euri Eclip Eexec. unfold handleCopyDataUri. rewrite Euri. unfold_job.
  rewrite Eclip, Eexec. cbn [fst snd app error success].
  repeat split. now rewrite <- !app_assoc.
Qed.

(** The older browser, with the output of an earlier conversion stored. *)
Lemma fallback_copy_ignores_the_answer_witness :
  success (app (fst (snd (handleCopyDataUri legacyShell (laterWorld, [])))))
    = Some "Data URI copied to clipboard!"
  /\ error (app (fst (snd (handleCopyDataUri legacyShell (laterWorld, []))))) = None
  /\ snd (snd (handleCopyDataUri legacyShell (laterWorld, [])))
     = ([] ++ [Body_appendChild (Textarea "data:image/png;base64,AAAA");
               Textarea_select (Textarea "data:image/png;base64,AAAA");
               Document_execCommand "copy";
               Body_removeChild (Textarea "data:image/png;base64,AAAA")])%list.
Proof.
  apply (@fallback_copy_ignores_the_answer float _ legacyShell (laterWorld, [])
           "data:image/png;base64,AAAA"); reflexivity.
Defined.

(** X9. A download offers exactly the stored data URI, as one text/plain
    blob, under the fixed name walletIcon.datauri.txt.  When nothing throws,
    the link is removed from the document, the object URL is revoked and
    "File downloaded successfully!" is shown.  When the click throws, the
    message is "Failed to download file", the link stays in the document and
    the object URL is never revoked; when the URL cannot be made, nothing is
    appended at all. *)
Theorem download_offers_the_stored_uri
    {num : Type} `{JSNumber num} (shell : Shell) (d : Desk num) (uri : string) :
  currentDataUri (app (fst d)) = Some uri ->
  let blob := {| blobParts := [uri]; blobType := "text/plain" |} in
  (forall url,
      createObjectURL shell blob = Normal url ->
      click shell (Anchor url "walletIcon.datauri.txt") = None ->
      snd (snd (handleDownloadTxt shell d))
      = (snd d ++ [URL_createObjectURL blob;
                   Body_appendChild (Anchor url "walletIcon.datauri.txt");
                   Anchor_click (Anchor url "walletIcon.datauri.txt");
                   Body_removeChild (Anchor url "walletIcon.datauri.txt");
                   URL_revokeObjectURL url])%list
      /\ success (app (fst (snd (handleDownloadTxt shell d))))
         = Some "File downloaded successfully!"
      /\ error (app (fst (snd (handleDownloadTxt shell d)))) = None)
  /\ (forall url exn,
         createObjectURL shell blob = Normal url ->
         click shell (Anchor url "walletIcon.datauri.txt") = Some exn ->
         snd (snd (handleDownloadTxt shell d))
         = (snd d ++ [URL_createObjectURL blob;
                      Body_appendChild (Anchor url "walletIcon.datauri.txt");
                      Anchor_click (Anchor url "walletIcon.datauri.txt")])%list
         /\ error (app (fst (snd (handleDownloadTxt shell d))))
            = Some "Failed to download file"
         /\ success (app (fst (snd (handleDownloadTxt shell d)))) = None)
  /\ (forall exn,
         createObjectURL shell blob = Throw exn ->
         snd (snd (handleDownloadTxt shell d)) = (snd d ++ [URL_createObjectURL blob])%list
         /\ error (app (fst (snd (handleDownloadTxt shell d))))
            = Some "Failed to download file"
         /\ success (app (fst (snd (handleDownloadTxt shell d)))) = None).
Proof.
  intros Euri blob. unfold handleDownloadTxt. rewrite Euri. unfold_job. fold blob.
  split; [|split].
  - intros url Eurl Eclick. rewrite Eurl; cbn [fst snd]. rewrite Eclick.
    cbn [fst snd app error success]. repeat split. now rewrite <- !app_assoc.
  - intros url exn Eurl Eclick. rewrite Eurl; cbn [fst snd]. rewrite Eclick.
    cbn [fst snd app error success]. repeat split. now rewrite <- !app_assoc.
  - intros exn Eurl. rewrite Eurl. cbn [fst snd app error success]. repeat split.
Qed.

(** The stored output, downloaded in a browser where the click goes
    through and in one where it throws. *)
Lemma download_offers_the_stored_uri_witness :
  snd (snd (handleDownloadTxt clipboardShell (laterWorld, [])))
  = [URL_createObjectURL
       {| blobParts := ["data:image/png;base64,AAAA"]; blobType := "text/plain" |};
     Body_appendChild (Anchor "blob:1" "walletIcon.datauri.txt");
     Anchor_click (Anchor "blob:1" "walletIcon.datauri.txt");
     Body_removeChild (Anchor "blob:1" "walletIcon.datauri.txt");
     URL_revokeObjectURL "blob:1"]
  /\ snd (snd (handleDownloadTxt stuckClickShell (laterWorld, [])))
     = [URL_createObjectURL
          {| blobParts := ["data:image/png;base64,AAAA"]; blobType := "text/plain" |};
        Body_appendChild (Anchor "blob:1" "walletIcon.datauri.txt");
        Anchor_click (Anchor "blob:1" "walletIcon.datauri.txt")].
Proof.
  split.
  - apply (proj1 (@download_offers_the_stored_uri float _ clipboardShell (laterWorld, [])
                    "data:image/png;base64,AAAA" eq_refl) "blob:1"); reflexivity.
  - apply (proj1 (proj2 (@download_offers_the_stored_uri float _ stuckClickShell
                           (laterWorld, []) "data:image/png;base64,AAAA" eq_refl))
             "blob:1" (ErrorObject "click failed")); reflexivity.
Defined.

(* ------------------------------------------------------------------ *)
(** ** What holds between any two events *)

Section PageFacts.

Context {num : Type} `{JSNumber num}.
Variable platform : Platform num.
Variable shell : Shell.

Lemma page_ok_processImage (fit : bool) (T : N) (file : File.t) (w : World num) :
  page_ok (app w) -> page_ok (app (after_processImage platform fit T file w)).
Proof.
  destruct (processImage_exit platform fit T file) as (calls & meta & result & X & Run).
  rewrite Run. unfold page_ok, finish; run_cbn. intros (R & _ & M).
  destruct X; (split; [exact R|]); (split; [now right|]);
    try exact M; intros _; discriminate.
Qed.

Lemma page_ok_handleFileSelect (file : File.t) (w : World num) :
  page_ok (app w) -> page_ok (app (snd (handleFileSelect platform file w))).
Proof.
  intros P. unfold handleFileSelect, bind, setSelectedFile, update.
  apply page_ok_processImage. exact P.
Qed.

Lemma page_ok_reprocess (w : World num) :
  page_ok (app w) -> page_ok (app (snd (reprocess platform w))).
Proof.
  intros P. unfold reprocess. destruct (selectedFile (app w)); [|exact P].
  destruct (negb _); [|exact P]. now apply page_ok_processImage.
Qed.

Lemma page_ok_handleCanvasSizeChange (value : option Z) (w : World num) :
  page_ok (app w) -> page_ok (app (snd (handleCanvasSizeChange value w))).
Proof.
  intros P. unfold handleCanvasSizeChange. destruct value as [v|]; [|exact P].
  destruct ((8 <=? v)%Z && (v <=? 2048)%Z) eqn:R; [|exact P].
  apply andb_prop in R as [L U]. apply Z.leb_le in L, U.
  destruct P as (_ & P). split; [|exact P]. cbn. lia.
Qed.

Lemma page_ok_handleCopyDataUri (d : Desk num) :
  page_ok (app (fst d)) -> page_ok (app (fst (snd (handleCopyDataUri shell d)))).
Proof.
  intros P. unfold handleCopyDataUri.
  destruct (currentDataUri (app (fst d))); [|exact P]. unfold_job.
  destruct P as (R & _ & M).
  destruct (clipboard_writeText shell) as [writeText|];
    [destruct (writeText s) | destruct (execCommand shell "copy")];
    (split; [exact R|]); (split; [|exact M]); cbn; auto.
Qed.

Lemma page_ok_handleDownloadTxt (d : Desk num) :
  page_ok (app (fst d)) -> page_ok (app (fst (snd (handleDownloadTxt shell d)))).
Proof.
  intros P. unfold handleDownloadTxt.
  destruct (currentDataUri (app (fst d))); [|exact P]. unfold_job.
  destruct P as (R & _ & M).
  destruct (createObjectURL shell _) as [url|exn]; cbn [fst snd];
    [destruct (click shell _)|];
    (split; [exact R|]); (split; [|exact M]); cbn; auto.
Qed.

(** Every handler keeps [page_ok]. *)
Lemma page_ok_step (d : Desk num) (e : Event) :
  page_ok (app (fst d)) -> page_ok (app (fst (step platform shell d e))).
Proof.
  intros P. unfold step. destruct e as [files| | |files|value|checked| | |];
    cbn [handle].
  - unfold on_state, handleFileInputChange.
    destruct files as [[|file rest]|]; cbn [nth_error];
      try exact P.
    destruct (handleFileSelect platform file (fst d)) as [c w'] eqn:E. cbn [fst snd].
    change w' with (snd (c, w')). rewrite <- E. now apply page_ok_handleFileSelect.
  - exact P.
  - exact P.
  - unfold on_state, handleDrop, bind, setIsDragOver, update.
    destruct files as [|file rest]; cbn [nth_error]; [exact P|].
    match goal with |- context [handleFileSelect platform file ?w0] =>
      destruct (handleFileSelect platform file w0) as [c w'] eqn:E;
      cbn [fst snd]; change w' with (snd (c, w')); rewrite <- E;
      now apply page_ok_handleFileSelect end.
  - unfold on_state, handleCanvasSizeChange_event.
    destruct (handleCanvasSizeChange (ParseInt.parseInt value) (fst d)) as [c w'] eqn:E.
    cbn [fst snd]. change w' with (snd (c, w')). rewrite <- E.
    now apply page_ok_handleCanvasSizeChange.
  - exact P.
  - now apply page_ok_handleCopyDataUri.
  - now apply page_ok_handleDownloadTxt.
  - unfold on_state.
    destruct (reprocess platform (fst d)) as [c w'] eqn:E.
    cbn [fst snd]. change w' with (snd (c, w')). rewrite <- E.
    now apply page_ok_reprocess.
Qed.

Lemma page_ok_fold (es : list Event) (d : Desk num) :
  page_ok (app (fst d)) -> page_ok (app (fst (fold_left (step platform shell) es d))).
Proof.
  revert d. induction es as [|e es IH]; intros d P; [exact P|].
  cbn [fold_left]. apply IH. now apply page_ok_step.
Qed.

Lemma page_ok_after_events (es : list Event) :
  page_ok (app (fst (after_events platform shell es))).
Proof.
  apply page_ok_fold. unfold page_ok. cbn.
  split; [lia|]. split; [now left|]. intros N. now destruct N.
Qed.

End PageFacts.

(** X10. Whatever is typed, dropped or clicked, in whatever order, the
    canvas size of the state stays between 8 and 2048. *)
Theorem canvas_size_stays_in_range
    {num : Type} `{JSNumber num} (platform : Platform num) (shell : Shell)
    (es : list Event) :
  (8 <= canvasSize (app (fst (after_events platform shell es))) <= 2048)%N.
Proof. apply (page_ok_after_events platform shell es). Qed.

(** X11. After any sequence of events the page shows at most one banner:
    never an error and a success message together. *)
Theorem one_banner_at_most
    {num : Type} `{JSNumber num} (platform : Platform num) (shell : Shell)
    (es : list Event) :
  errorBanner (render (app (fst (after_events platform shell es)))) = None
  \/ successBanner (render (app (fst (after_events platform shell es)))) = None.
Proof.
  destruct (page_ok_after_events platform shell es) as (_ & [E|S] & _);
    [left | right]; cbn [render errorBanner successBanner]; [rewrite E | rewrite S];
    reflexivity.
Qed.

(** X12. After any sequence of events, the preview with the metadata is on
    the page exactly when the textarea with the data URI is: an output is
    never stored without the metadata of a source. *)
Theorem output_comes_with_preview
    {num : Type} `{JSNumber num} (platform : Platform num) (shell : Shell)
    (es : list Event) :
  preview (render (app (fst (after_events platform shell es)))) <> None
  <-> outputTextarea (render (app (fst (after_events platform shell es)))) <> None.
Proof.
  destruct (page_ok_after_events platform shell es) as (_ & _ & M).
  cbn [render preview outputTextarea].
  destruct (outputData _) as [output|].
  - destruct (imageMetadata _) as [metadata|]; [split; discriminate|].
    exfalso. apply M; [discriminate | reflexivity].
  - destruct (imageMetadata _); split; intros N; now destruct N.
Qed.

(* ------------------------------------------------------------------ *)
(** ** More of the geometry, in exact arithmetic *)

Module GeometryFacts.
Import Exact ExactFacts.

Lemma Qnonzero (q : Q) : 0 < q -> ~ q == 0.
Proof. intros P Z. rewrite Z in P. now apply Qlt_irrefl in P. Qed.

(** A positive numerator over a larger divisor is smaller. *)
Lemma ratio_antitone (t a b : Q) : 0 < t -> 0 < a -> a <= b -> t / b <= t / a.
Proof.
  intros Pt Pa L. assert (Pb : 0 < b) by (eapply Qlt_le_trans; eauto).
  apply Qle_shift_div_l; [exact Pa|].
  assert (E : t / b * b == t) by (field; now apply Qnonzero).
  rewrite <- E at 2. apply Qmult_le_l; [|exact L].
  apply Qlt_shift_div_l; [exact Pb | now rewrite Qmult_0_l].
Qed.

Lemma ratio_antitone_strict (t a b : Q) : 0 < t -> 0 < a -> a < b -> t / b < t / a.
Proof.
  intros Pt Pa L. assert (Pb : 0 < b) by (eapply Qlt_trans; eauto).
  apply Qlt_shift_div_l; [exact Pa|].
  assert (E : t / b * b == t) by (field; now apply Qnonzero).
  rewrite <- E at 2. apply Qmult_lt_l; [|exact L].
  apply Qlt_shift_div_l; [exact Pb | now rewrite Qmult_0_l].
Qed.

(** The scale of a source with positive sides: the canvas size over the
    longer side. *)
Lemma scale_longer_side (T : N) (img : HTMLImageElement) :
  (0 < naturalWidth img)%N -> (0 < naturalHeight img)%N -> (0 < T)%N ->
  @scale xnum exact T img
  = XFin (inject_Z (Z.of_N T)
          / inject_Z (Z.of_N (N.max (naturalWidth img) (naturalHeight img)))).
Proof.
  intros Pw Ph PT. unfold scale.
  rewrite (div_by_pos T Pw), (div_by_pos T Ph).
  pose proof (inject_pos PT) as QT.
  pose proof (inject_pos Pw) as Qw.
  pose proof (inject_pos Ph) as Qh.
  cbn [Math_min exact min ltb].
  destruct (N.le_gt_cases (naturalHeight img) (naturalWidth img)) as [L|L].
  - rewrite N.max_l by exact L.
    assert (Q : inject_Z (Z.of_N (naturalHeight img)) <= inject_Z (Z.of_N (naturalWidth img)))
      by (rewrite <- Zle_Qle; lia).
    pose proof (ratio_antitone QT Qh Q) as R. apply Qltb_ge in R. now rewrite R.
  - rewrite N.max_r by lia.
    assert (Q : inject_Z (Z.of_N (naturalWidth img)) < inject_Z (Z.of_N (naturalHeight img)))
      by (rewrite <- Zlt_Qlt; lia).
    pose proof (ratio_antitone_strict QT Qw Q) as R. apply Qltb_lt in R. now rewrite R.
Qed.

End GeometryFacts.

(** X13. In exact arithmetic, for a source with positive sides on a positive
    canvas, the scale is the canvas size over the longer side of the source.
    So it is below 1 exactly when the longer side exceeds the canvas (the
    source is reduced), 1 exactly when the longer side is the canvas size,
    and above 1 exactly when the longer side is smaller (the source is
    enlarged). *)
Theorem scale_by_longer_side (T : N) (img : HTMLImageElement) :
  (0 < naturalWidth img)%N -> (0 < naturalHeight img)%N -> (0 < T)%N ->
  (@scale xnum exact T img
   === of_N T / of_N (N.max (naturalWidth img) (naturalHeight img)))%js = true
  /\ ((@scale xnum exact T img <? of_N 1)%js = true
      <-> (T < N.max (naturalWidth img) (naturalHeight img))%N)
  /\ ((@scale xnum exact T img === of_N 1)%js = true
      <-> N.max (naturalWidth img) (naturalHeight img) = T)
  /\ ((of_N 1 <? @scale xnum exact T img)%js = true
      <-> (N.max (naturalWidth img) (naturalHeight img) < T)%N).
Proof.
  intros Pw Ph PT. rewrite (GeometryFacts.scale_longer_side img Pw Ph PT).
  assert (Pm : (0 < N.max (naturalWidth img) (naturalHeight img))%N) by lia.
  rewrite (ExactFacts.div_by_pos T Pm).
  pose proof (ExactFacts.inject_pos Pm) as Qm. pose proof (ExactFacts.inject_pos PT) as QT.
  set (m := N.max (naturalWidth img) (naturalHeight img)) in *.
  cbn [num_eqb num_ltb of_N exact Exact.eqb Exact.ltb].
  rewrite !ExactFacts.Qltb_lt, !Qeq_bool_iff.
  change (inject_Z (Z.of_N 1)) with 1.
  assert (E : inject_Z (Z.of_N T) / inject_Z (Z.of_N m) * inject_Z (Z.of_N m)
              == inject_Z (Z.of_N T)) by (field; now apply GeometryFacts.Qnonzero).
  split; [reflexivity|]. split; [|split].
  - split.
    + intros L. apply (Qmult_lt_r _ _ _ Qm) in L. rewrite E, Qmult_1_l in L.
      rewrite <- Zlt_Qlt in L. lia.
    + intros L. apply Qlt_shift_div_r; [exact Qm|]. rewrite Qmult_1_l, <- Zlt_Qlt. lia.
  - split.
    + intros L. rewrite L, Qmult_1_l in E. unfold Qeq in E; cbn [Qnum Qden inject_Z] in E. lia.
    + intros <-. field. now apply GeometryFacts.Qnonzero.
  - split.
    + intros L. apply (Qmult_lt_r _ _ _ Qm) in L. rewrite E, Qmult_1_l in L.
      rewrite <- Zlt_Qlt in L. lia.
    + intros L. apply Qlt_shift_div_l; [exact Qm|]. rewrite Qmult_1_l, <- Zlt_Qlt. lia.
Qed.

(** An 800 x 600 source on the canvas of 256: the scale is 256 / 800. *)
Lemma scale_by_longer_side_witness :
  (@scale xnum exact 256 {| src := "s"; naturalWidth := 800; naturalHeight := 600 |}
   === of_N 256 / of_N (N.max 800 600))%js = true
  /\ ((@scale xnum exact 256 {| src := "s"; naturalWidth := 800; naturalHeight := 600 |}
       <? of_N 1)%js = true <-> (256 < N.max 800 600)%N)
  /\ ((@scale xnum exact 256 {| src := "s"; naturalWidth := 800; naturalHeight := 600 |}
       === of_N 1)%js = true <-> N.max 800 600 = 256%N)
  /\ ((of_N 1 <? @scale xnum exact 256
                   {| src := "s"; naturalWidth := 800; naturalHeight := 600 |})%js = true
      <-> (N.max 800 600 < 256)%N).
Proof.
  apply (@scale_by_longer_side 256
           {| src := "s"; naturalWidth := 800; naturalHeight := 600 |}); reflexivity.
Defined.

(** X14. In exact arithmetic the fit is tight and centred: the longer side
    of the source fills the canvas from edge to edge (its scaled length is
    the canvas size and its offset is 0), and on each axis the margin before
    the image equals the margin after it. *)
Theorem fit_is_tight_and_centred (T : N) (img : HTMLImageElement) :
  (0 < naturalWidth img)%N -> (0 < naturalHeight img)%N -> (0 < T)%N ->
  ((naturalHeight img <= naturalWidth img)%N ->
   (@scaledWidth xnum exact T img === of_N T)%js = true
   /\ (@x xnum exact T img === of_N 0)%js = true)
  /\ ((naturalWidth img <= naturalHeight img)%N ->
      (@scaledHeight xnum exact T img === of_N T)%js = true
      /\ (@y xnum exact T img === of_N 0)%js = true)
  /\ (@x xnum exact T img + scaledWidth T img + x T img === of_N T)%js = true
  /\ (@y xnum exact T img + scaledHeight T img + y T img === of_N T)%js = true.
Proof.
  intros Pw Ph PT.
  destruct (exact_rect T img (GeometryFacts.scale_longer_side img Pw Ph PT)) as (-> & -> & -> & ->).
  pose proof (ExactFacts.inject_pos Pw) as Qw. pose proof (ExactFacts.inject_pos Ph) as Qh.
  cbn [num_eqb num_add of_N exact Exact.eqb Exact.add].
  rewrite !Qeq_bool_iff. change (inject_Z (Z.of_N 0)) with 0.
  assert (Pm : (0 < N.max (naturalWidth img) (naturalHeight img))%N) by lia.
  pose proof (GeometryFacts.Qnonzero (ExactFacts.inject_pos Pm)) as Nm.
  split; [|split; [|split]].
  - intros L. rewrite N.max_l in * by exact L. split; field; exact Nm.
  - intros L. rewrite N.max_r in * by exact L. split; field; exact Nm.
  - field; exact Nm.
  - field; exact Nm.
Qed.

(** An 800 x 600 source on the canvas of 256. *)
Lemma fit_is_tight_and_centred_witness :
  ((600 <= 800)%N ->
   (@scaledWidth xnum exact 256 {| src := "s"; naturalWidth := 800; naturalHeight := 600 |}
    === of_N 256)%js = true
   /\ (@x xnum exact 256 {| src := "s"; naturalWidth := 800; naturalHeight := 600 |}
       === of_N 0)%js = true)
  /\ ((800 <= 600)%N ->
      (@scaledHeight xnum exact 256
         {| src := "s"; naturalWidth := 800; naturalHeight := 600 |} === of_N 256)%js = true
      /\ (@y xnum exact 256 {| src := "s"; naturalWidth := 800; naturalHeight := 600 |}
          === of_N 0)%js = true)
  /\ (@x xnum exact 256 {| src := "s"; naturalWidth := 800; naturalHeight := 600 |}
        + scaledWidth 256 {| src := "s"; naturalWidth := 800; naturalHeight := 600 |}
        + x 256 {| src := "s"; naturalWidth := 800; naturalHeight := 600 |}
      === of_N 256)%js = true
  /\ (@y xnum exact 256 {| src := "s"; naturalWidth := 800; naturalHeight := 600 |}
        + scaledHeight 256 {| src := "s"; naturalWidth := 800; naturalHeight := 600 |}
        + y 256 {| src := "s"; naturalWidth := 800; naturalHeight := 600 |}
      === of_N 256)%js = true.
Proof.
  apply (@fit_is_tight_and_centred 256
           {| src := "s"; naturalWidth := 800; naturalHeight := 600 |}); reflexivity.
Defined.

(* ------------------------------------------------------------------ *)
(** ** More of the size accounting, in exact arithmetic *)

Module RoundingFacts.
Import Exact.

(** Three quarters of any length, rounded half up and rounded up. *)
Lemma three_quarters_of (n : Z) :
  (0 <= n)%Z ->
  let q := (inject_Z n * inject_Z 3 / inject_Z 4)%Q in
  Qfloor (q + (1 # 2)) = ((3 * n + 2) / 4)%Z /\ Qceiling q = ((3 * n + 3) / 4)%Z.
Proof.
  intros P q.
  assert (E : q == (3 * n) # 4).
  { unfold q, Qeq, Qdiv, Qmult, Qinv, inject_Z; cbn [Qnum Qden]. lia. }
  split.
  - assert (E2 : q + (1 # 2) == (2 * (3 * n + 2)) # 8).
    { rewrite E. unfold Qeq, Qplus; cbn [Qnum Qden]. lia. }
    rewrite (Qfloor_comp _ _ E2). cbn [Qfloor Qnum Qden].
    change (Z.pos 8) with (2 * 4)%Z. now rewrite Z.div_mul_cancel_l by lia.
  - unfold Qceiling.
    assert (E3 : - q == (- (3 * n)) # 4).
    { rewrite E. reflexivity. }
    rewrite (Qfloor_comp _ _ E3). cbn [Qfloor Qnum Qden].
    pose proof (Z.div_mod (- (3 * n)) 4) as D1.
    pose proof (Z.mod_pos_bound (- (3 * n)) 4) as B1.
    pose proof (Z.div_mod (3 * n + 3) 4) as D2.
    pose proof (Z.mod_pos_bound (3 * n + 3) 4) as B2.
    lia.
Qed.

(** The byte count of the code and that of the specification, as integers. *)
Lemma byte_counts (base64Data : string) :
  let n := N.of_nat (String.length base64Data) in
  @outputSizeBytes_of xnum exact base64Data = of_N ((3 * n + 2) / 4)%N
  /\ @spec_encodedByteLength xnum exact n = of_N ((3 * n + 3) / 4)%N.
Proof.
  intros n. unfold outputSizeBytes_of, spec_encodedByteLength, js_length. fold n.
  destruct (@three_quarters_of (Z.of_N n)) as [F C]; [lia|]. cbv zeta in F, C.
  cbn [of_N num_mul num_div Math_round Math_ceil exact mul div round ceil].
  change (Qis_zero (inject_Z (Z.of_N 4))) with false. cbn iota.
  change (Z.of_N 3) with 3%Z. change (Z.of_N 4) with 4%Z.
  unfold round, ceil. rewrite F, C, !N2Z.inj_div, !N2Z.inj_add, !N2Z.inj_mul.
  split; reflexivity.
Qed.

(** One decimal of a count of bytes in KB, in exact arithmetic: a number of
    tenths, within a twentieth of the count over 1024. *)
Lemma tenths_of_KB (bytes : N) :
  exists tenths : Z,
    (Math_round (@of_N xnum exact bytes / of_N 1024 * of_N 10) / of_N 10)%js
    = XFin (inject_Z tenths / inject_Z 10)
    /\ inject_Z (Z.of_N bytes) / 1024 - (1 # 20) <= inject_Z tenths / inject_Z 10
    /\ inject_Z tenths / inject_Z 10 <= inject_Z (Z.of_N bytes) / 1024 + (1 # 20)
    /\ (0 <= tenths)%Z.
Proof.
  cbn [of_N num_mul num_div Math_round exact mul div round].
  change (Qis_zero (inject_Z (Z.of_N 1024))) with false.
  change (Qis_zero (inject_Z (Z.of_N 10))) with false. cbn iota.
  set (v := inject_Z (Z.of_N bytes) / inject_Z (Z.of_N 1024) * inject_Z (Z.of_N 10)).
  exists (Qfloor (v + (1 # 2))). split; [reflexivity|].
  pose proof (Qfloor_le (v + (1 # 2))) as L.
  pose proof (Qlt_floor (v + (1 # 2))) as U.
  rewrite inject_Z_plus in U. change (inject_Z 1) with 1 in U.
  assert (Pv : 0 <= v).
  { unfold v. apply Qmult_le_0_compat; [|discriminate].
    apply Qle_shift_div_l; [reflexivity|]. rewrite Qmult_0_l.
    change 0 with (inject_Z 0). rewrite <- Zle_Qle. lia. }
  assert (Ev : v == inject_Z (Z.of_N bytes) / 1024 * 10) by reflexivity.
  set (t := inject_Z (Qfloor (v + (1 # 2)))) in *.
  set (b := inject_Z (Z.of_N bytes)) in *.
  change (inject_Z 10) with 10.
  assert (P0 : (0 <= Qfloor (v + (1 # 2)))%Z).
  { assert (F0 : (Qfloor 0 <= Qfloor v)%Z) by (apply Qfloor_resp_le; exact Pv).
    change (Qfloor 0) with 0%Z in F0.
    assert (M : (Qfloor v <= Qfloor (v + (1 # 2)))%Z) by (apply Qfloor_resp_le; lra).
    lia. }
  clearbody t b v. unfold Qdiv in *.
  change (/ 1024) with (1 # 1024) in *. change (/ 10) with (1 # 10) in *.
  repeat split; try lra. exact P0.
Qed.

(** The two roundings of three quarters of [n], compared. *)
Lemma quarters (n : N) :
  ((n mod 4 <> 3 -> (3 * n + 3) / 4 = (3 * n + 2) / 4)
   /\ (n mod 4 = 3 -> (3 * n + 3) / 4 = (3 * n + 2) / 4 + 1))%N.
Proof.
  pose proof (N.div_mod' (3 * n + 2) 4) as D1.
  assert (B1 : ((3 * n + 2) mod 4 < 4)%N) by (apply N.mod_lt; discriminate).
  pose proof (N.div_mod' (3 * n + 3) 4) as D2.
  assert (B2 : ((3 * n + 3) mod 4 < 4)%N) by (apply N.mod_lt; discriminate).
  pose proof (N.div_mod' n 4) as D3.
  assert (B3 : (n mod 4 < 4)%N) by (apply N.mod_lt; discriminate).
  generalize dependent ((3 * n + 2) / 4)%N. generalize dependent ((3 * n + 2) mod 4)%N.
  generalize dependent ((3 * n + 3) / 4)%N. generalize dependent ((3 * n + 3) mod 4)%N.
  generalize dependent (n / 4)%N. generalize dependent (n mod 4)%N.
  intros. split; intros M; lia.
Qed.

End RoundingFacts.

(** X15. For a payload of any length n, the byte count the code computes is
    three quarters of n rounded half up, that is (3n + 2) div 4.  It is the
    ceiling of three quarters of n except when n leaves 3 modulo 4, where it
    is one less. *)
Theorem byte_count_rounds_half_up (base64Data : string) :
  @outputSizeBytes_of xnum exact base64Data
  = of_N ((3 * N.of_nat (String.length base64Data) + 2) / 4)%N
  /\ ((N.of_nat (String.length base64Data) mod 4 <> 3)%N ->
      @outputSizeBytes_of xnum exact base64Data
      = spec_encodedByteLength (N.of_nat (String.length base64Data)))
  /\ ((N.of_nat (String.length base64Data) mod 4 = 3)%N ->
      @spec_encodedByteLength xnum exact (N.of_nat (String.length base64Data))
      = of_N ((3 * N.of_nat (String.length base64Data) + 2) / 4 + 1)%N).
Proof.
  destruct (RoundingFacts.byte_counts base64Data) as [B S]. cbv zeta in B, S.
  destruct (RoundingFacts.quarters (N.of_nat (String.length base64Data))) as [Q3 Q4].
  split; [exact B|]. split; intros M; rewrite S; [rewrite B, (Q3 M) | rewrite (Q4 M)];
    reflexivity.
Qed.

(** X16. In exact arithmetic both sizes on the page, that of the source
    file and that of the output, are a whole number of tenths of a KB and
    lie within a twentieth of a KB of the byte count over 1024. *)
Theorem sizes_shown_within_a_twentieth :
  (forall metadata : ImageMetadata.t,
      exists tenths : Z,
        @metadataSizeKB xnum exact metadata = XFin (inject_Z tenths / inject_Z 10)
        /\ inject_Z (Z.of_N (ImageMetadata.size metadata)) / 1024 - (1 # 20)
           <= inject_Z tenths / inject_Z 10
        /\ inject_Z tenths / inject_Z 10
           <= inject_Z (Z.of_N (ImageMetadata.size metadata)) / 1024 + (1 # 20))
  /\ (forall base64Data : string,
         exists tenths : Z,
           @outputSizeKB_of xnum exact base64Data = XFin (inject_Z tenths / inject_Z 10)
           /\ inject_Z (Z.of_N ((3 * N.of_nat (String.length base64Data) + 2) / 4)) / 1024
                - (1 # 20)
              <= inject_Z tenths / inject_Z 10
           /\ inject_Z tenths / inject_Z 10
              <= inject_Z (Z.of_N ((3 * N.of_nat (String.length base64Data) + 2) / 4)) / 1024
                 + (1 # 20)).
Proof.
  split.
  - intros metadata. unfold metadataSizeKB.
    destruct (RoundingFacts.tenths_of_KB (ImageMetadata.size metadata))
      as (tenths & E & L & U & _).
    exists tenths. repeat split; assumption.
  - intros base64Data. unfold outputSizeKB_of.
    destruct (RoundingFacts.byte_counts base64Data) as [B _]. cbv zeta in B. rewrite B.
    destruct (RoundingFacts.tenths_of_KB
                ((3 * N.of_nat (String.length base64Data) + 2) / 4))
      as (tenths & E & L & U & _).
    exists tenths. repeat split; assumption.
Qed.

(* ------------------------------------------------------------------ *)
(** ** Dropped files, and sources without pixels *)

(** X17. Of the files dropped on the page only the first is converted, with
    the settings of the first render: it becomes the selected file, the drag
    highlight goes off, and what the page then shows is what converting that
    file alone shows.  A drop without files does what leaving the drop zone
    does, and a file input without files changes nothing. *)
Theorem drop_converts_the_first_file
    {num : Type} `{JSNumber num} (platform : Platform num)
    (file : File.t) (rest : list File.t) (w : World num) :
  handleDrop platform (file :: rest) w = handleDrop platform [file] w
  /\ selectedFile (app (snd (handleDrop platform (file :: rest) w))) = Some file
  /\ isDragOver (app (snd (handleDrop platform (file :: rest) w))) = false
  /\ shown (snd (handleDrop platform (file :: rest) w))
     = shown (after_processImage platform true 256 file w)
  /\ snd (handleDrop platform [] w) = snd (handleDragLeave w)
  /\ snd (handleFileInputChange platform (Some []) w) = w
  /\ snd (handleFileInputChange platform None w) = w.
Proof.
  split; [reflexivity|].
  unfold handleDrop, handleFileSelect, bind, setIsDragOver, setSelectedFile, update.
  cbn [nth_error fst snd].
  match goal with
  | |- context [memoized_processImage platform file ?w0] =>
      change (snd (memoized_processImage platform file w0))
        with (after_processImage platform true 256 file w0)
  end.
  destruct (processImage_exit platform true 256 file) as (calls & meta & result & X & Run).
  rewrite !Run. unfold shown, finish; run_cbn.
  repeat split.
Qed.

(** X18. Without [fitToSquare], a decoded source whose natural width or
    height is zero gives a canvas without pixels, for which [toDataURL]
    returns "data:,": the conversion succeeds and stores that string, which
    holds no PNG, as the data URI, with a size of 0 KB and the natural
    dimensions, and the copy and download buttons will offer it. *)
Theorem source_without_pixels_gives_empty_uri
    {num : Type} `{JSNumber num} (platform : Platform num)
    (T : N) (file : File.t) (w : World num) (url : string) (img : HTMLImageElement) :
  (naturalWidth img = 0 \/ naturalHeight img = 0)%N ->
  isValidImageType (File.type file) = true ->
  readAsDataURL platform file = Some url ->
  loadImage platform url = Some img ->
  decode platform img = None ->
  getContext2d platform = true ->
  error (app (after_processImage platform false T file w)) = None
  /\ outputData (app (after_processImage platform false T file w))
     = Some {| dataUri := "data:,";
               outputSizeKB := outputSizeKB_of "";
               outputWidth := naturalWidth img;
               outputHeight := naturalHeight img |}
  /\ currentDataUri (app (after_processImage platform false T file w)) = Some "data:,"
  /\ @outputSizeKB_of float double "" = 0%float
  /\ (@outputSizeKB_of xnum exact "" === of_N 0)%js = true.
Proof.
  intros Zero Evalid Eread Eload Edecode Ectx.
  assert (Eurl : dataURL platform (draw false T img createCanvas) = Normal "data:,").
  { unfold dataURL. cbn [draw set_width set_height ctx_call Canvas.width Canvas.height].
    destruct Zero as [-> | ->]; cbn [N.eqb orb]; [reflexivity|].
    now rewrite orb_true_r. }
  destruct (processImage_exit platform false T file) as (calls & meta & result & X & Run).
  rewrite Run. unfold currentDataUri, finish; run_cbn.
  destruct X; unfold drawn in *; try congruence;
    repeat match goal with
           | A : ?l = Some _, B : ?l = Some _ |- _ => rewrite A in B; injection B as ->
           end;
    try congruence;
    match goal with
    | U : dataURL _ _ = Normal ?u |- _ =>
        rewrite Eurl in U; apply (f_equal (fun c => match c with
                                                    | Normal v => v
                                                    | Throw _ => u
                                                    end)) in U;
        cbn beta iota in U; subst u
    end;
    match goal with
    | P : nth_error (split _ _) 1 = _ |- _ => cbn in P; try discriminate P
    end.
  match goal with
  | P : Some _ = Some ?b |- _ =>
      apply (f_equal (fun o => match o with Some v => v | None => b end)) in P;
      cbn beta iota in P; subst b
  end.
  repeat split.
Qed.

(** The SVG of natural width zero, converted without fitting. *)
Lemma source_without_pixels_witness :
  error (app (after_processImage (stubPlatform 0 50 [x89; x50]) false 256 svgFile
                (@initialWorld float _))) = None
  /\ outputData (app (after_processImage (stubPlatform 0 50 [x89; x50]) false 256 svgFile
                        (@initialWorld float _)))
     = Some {| dataUri := "data:,";
               outputSizeKB := outputSizeKB_of "";
               outputWidth := 0;
               outputHeight := 50 |}
  /\ currentDataUri (app (after_processImage (stubPlatform 0 50 [x89; x50]) false 256 svgFile
                            (@initialWorld float _))) = Some "data:,"
  /\ @outputSizeKB_of float double "" = 0%float
  /\ (@outputSizeKB_of xnum exact "" === of_N 0)%js = true.
Proof.
  refine (@source_without_pixels_gives_empty_uri float _
            (stubPlatform 0 50 [x89; x50]) 256 svgFile (@initialWorld float _)
            "data:image/svg+xml;base64,PHN2"
            {| src := "data:image/svg+xml;base64,PHN2";
               naturalWidth := 0; naturalHeight := 50 |} _ _ _ _ _ _);
    try reflexivity.
  left. reflexivity.
Defined.
